(** * The Ollama provider adapter ([src/api/providers/ollama.ts])

    The source file holds two listings of the class [OllamaHandler]:

    - the first one (lines 32-108) checks the model id, wraps the failures
      of the request into diagnostics of its own and always streams; it is
      embedded as [Module Strict];
    - the second one (lines 117-233) substitutes an empty model id, knows a
      non-streaming mode and wraps mid-stream failures; it is embedded as
      [Module Second].

    Both are shallow embeddings.  [createMessage], an async generator,
    becomes a computation in a small monad [Gen] that records, in order, the
    requests handed to the transport client and the chunks yielded, and that
    ends with a value, with a thrown error, or pending on a promise that
    never settles.  The computation is the generator driven to its end by a
    caller that keeps pulling.

    A promise is given by its fate: pending for ever, or settled so many
    milliseconds after it was made.  The timer is set before the request is
    made and fires after the delay Node gives [setTimeout] (the timeout, or
    1 ms when the timeout is below 1 or above 2^31 - 1); [Promise.race]
    picks the promise that settles first, and the timer on a tie.  A
    streamed response is finite: it delivers its parts and then ends or
    throws.

    What is not in the source file is taken as given:
    - the converter [convertToOllamaMessages], the record
      [openAiModelInfoSaneDefaults] and the fields of [ModelInfo] besides
      [contextWindow] are members of the class [Imports];
    - the answer of the transport client ([client.chat]) is a field of the
      client object, so every statement holds for every server and every stub;
      which host the package [ollama] makes of the [host] option it is given
      is the package's, and no statement is about it;
    - the decorator [withRetry] of the second listing wraps the method from
      outside; the embedding is the decorated method's own body (one attempt);
    - [console.log] and [console.error] lines are left out.

    Strings are byte strings (the UTF-8 encoding of the JavaScript string).
    Token counters, status codes and milliseconds are integers ([Z]).  An
    integer in a message is printed as Number::toString prints it within
    bounds that the statements carry: [Js.safeInteger] for a status code,
    [Js.exactlyPrinted] for the milliseconds whose thousandth is printed.
    The number a context-size override parses to is a binary64 value
    ([Js.JsNumber]), and [Js.Number] follows StringToNumber of ECMA-262
    with its rounding. *)

From Stdlib Require Import ZArith QArith List String Ascii Bool Lia.
From Stdlib Require Import DecimalString DecimalPos.
Import ListNotations.
Open Scope string_scope.
Open Scope Z_scope.

(** * JavaScript values and operators used by the adapter *)

Module Js.

(** ** Numbers: binary64 values, a finite one given by its exact value. *)

Inductive JsNumber : Type :=
| NaN
| Infinity (negative : bool)
| Finite (q : Q).

Definition ofZ (z : Z) : JsNumber := Finite (z # 1).

(** [n / d] rounded to an integer, ties to even ([0 <= n], [0 < d]). *)
Definition round_half_even (n d : Z) : Z :=
  let q := n / d in
  match (2 * (n mod d)) ?= d with
  | Lt => q
  | Gt => q + 1
  | Eq => if Z.even q then q else q + 1
  end.

(** The integer [e] with [2^e <= n/d < 2^(e+1)] ([0 < n], [0 < d]). *)
Definition floor_log2_ratio (n d : Z) : Z :=
  let e0 := Z.log2 n - Z.log2 d in
  let above := if 0 <=? e0 then d * 2 ^ e0 <=? n else d <=? n * 2 ^ (- e0) in
  if above then e0 else e0 - 1.

(** The binary64 value nearest to [n/d] (ties to even): a 53-bit significand
    [m] at exponent [e], [e] no less than -1074 (subnormal values), and
    [None] when the result exceeds the largest finite value. *)
Definition binary64_magnitude (n d : Z) : option Q :=
  if n =? 0 then Some (0 # 1)
  else
    let e := Z.max (floor_log2_ratio n d - 52) (-1074) in
    let m := if 0 <=? e then round_half_even n (d * 2 ^ e)
             else round_half_even (n * 2 ^ (- e)) d in
    if (971 <? e) || ((e =? 971) && (m =? 2 ^ 53)) then None
    else if 0 <=? e then Some (m * 2 ^ e # 1)
    else Some (Qred (m # Z.to_pos (2 ^ (- e)))).

Definition binary64 (negative : bool) (n d : Z) : JsNumber :=
  match binary64_magnitude n d with
  | None => Infinity negative
  | Some q => Finite (if negative then Qred (Qopp q) else q)
  end.

(** ToBoolean on a number: false at NaN and at zero. *)
Definition truthy_number (x : JsNumber) : bool :=
  match x with
  | NaN => false
  | Infinity _ => true
  | Finite q => negb (Qnum q =? 0)
  end.

(** [x || d] on numbers. *)
Definition or_number (x d : JsNumber) : JsNumber :=
  if truthy_number x then x else d.

(** ** [Number(string)]: StringToNumber of ECMA-262 *)

Definition bytes (l : list nat) : string :=
  string_of_list_ascii (map ascii_of_nat l).

(** White space and line terminators, in UTF-8: U+0009 to U+000D, U+0020,
    U+00A0, U+1680, U+2000 to U+200A, U+2028, U+2029, U+202F, U+205F, U+3000
    and U+FEFF. *)
Definition StrWhiteSpaceChar : list string :=
  map bytes
    [ [9]; [10]; [11]; [12]; [13]; [32];
      [194; 160]; [225; 154; 128];
      [226; 128; 128]; [226; 128; 129]; [226; 128; 130];
      [226; 128; 131]; [226; 128; 132]; [226; 128; 133];
      [226; 128; 134]; [226; 128; 135]; [226; 128; 136];
      [226; 128; 137]; [226; 128; 138]; [226; 128; 168];
      [226; 128; 169]; [226; 128; 175]; [226; 129; 159];
      [227; 128; 128]; [239; 187; 191] ]%nat.

Fixpoint strip_prefix (p s : string) : option string :=
  match p, s with
  | EmptyString, _ => Some s
  | String a p', String b s' => if Ascii.eqb a b then strip_prefix p' s' else None
  | String _ _, EmptyString => None
  end.

Fixpoint strip_any (ps : list string) (s : string) : option string :=
  match ps with
  | [] => None
  | p :: ps' => match strip_prefix p s with
                | Some r => Some r
                | None => strip_any ps' s
                end
  end.

Fixpoint trim_start (ws : list string) (fuel : nat) (s : string) : string :=
  match fuel with
  | O => s
  | S fuel' => match strip_any ws s with
               | Some r => trim_start ws fuel' r
               | None => s
               end
  end.

Definition rev_string (s : string) : string :=
  string_of_list_ascii (rev (list_ascii_of_string s)).

(** Every pass of [trim_start] drops at least one byte, so the length of the
    string is fuel enough. *)
Definition trim (s : string) : string :=
  let s1 := trim_start StrWhiteSpaceChar (String.length s) s in
  rev_string
    (trim_start (map rev_string StrWhiteSpaceChar) (String.length s1) (rev_string s1)).

Definition digit_value (radix : Z) (c : ascii) : option Z :=
  let n := Z.of_nat (nat_of_ascii c) in
  let v := if (48 <=? n) && (n <=? 57) then Some (n - 48)
           else if (97 <=? n) && (n <=? 102) then Some (n - 87)
           else if (65 <=? n) && (n <=? 70) then Some (n - 55)
           else None in
  match v with
  | Some d => if d <? radix then Some d else None
  | None => None
  end.

(** The longest run of digits at the head of [s]: its value on top of [acc],
    the number of digits read on top of [count], and what follows. *)
Fixpoint digits (radix : Z) (acc : Z) (count : Z) (s : string) : Z * Z * string :=
  match s with
  | EmptyString => (acc, count, s)
  | String c s' => match digit_value radix c with
                   | Some d => digits radix (radix * acc + d) (count + 1) s'
                   | None => (acc, count, s)
                   end
  end.

Definition NonDecimalIntegerLiteral (s : string) : option Z :=
  match s with
  | String "0" (String c rest) =>
      let radix := if (Ascii.eqb c "x" || Ascii.eqb c "X")%bool then Some 16
                   else if (Ascii.eqb c "o" || Ascii.eqb c "O")%bool then Some 8
                   else if (Ascii.eqb c "b" || Ascii.eqb c "B")%bool then Some 2
                   else None in
      match radix with
      | Some r => match digits r 0 0 rest with
                  | (v, n, EmptyString) => if 0 <? n then Some v else None
                  | _ => None
                  end
      | None => None
      end
  | _ => None
  end.

Definition sign_prefix (s : string) : bool * string :=
  match s with
  | String "+" r => (false, r)
  | String "-" r => (true, r)
  | _ => (false, s)
  end.

(** The optional ExponentPart: the exponent and what follows it; [None] when
    an exponent indicator is not followed by a SignedInteger. *)
Definition ExponentPart (s : string) : option (Z * string) :=
  match s with
  | String c r =>
      if (Ascii.eqb c "e" || Ascii.eqb c "E")%bool then
        let '(neg, r1) := sign_prefix r in
        match digits 10 0 0 r1 with
        | (v, n, r2) => if 0 <? n then Some (if neg then - v else v, r2) else None
        end
      else Some (0, s)
  | EmptyString => Some (0, s)
  end.

(** A StrUnsignedDecimalLiteral other than [Infinity], as a significand and a
    power of ten. *)
Definition StrUnsignedDecimalLiteral (s : string) : option (Z * Z) :=
  let '(ip, ni, r1) := digits 10 0 0 s in
  let '(mant, nf, r2) :=
    match r1 with
    | String "." r => digits 10 ip 0 r
    | _ => (ip, 0, r1)
    end in
  if 0 <? ni + nf then
    match ExponentPart r2 with
    | Some (e, EmptyString) => Some (mant, e - nf)
    | _ => None
    end
  else None.

Definition StringToNumber (s : string) : JsNumber :=
  let t := trim s in
  if String.eqb t "" then ofZ 0
  else
    match NonDecimalIntegerLiteral t with
    | Some v => binary64 false v 1
    | None =>
        let '(neg, u) := sign_prefix t in
        if String.eqb u "Infinity" then Infinity neg
        else
          match StrUnsignedDecimalLiteral u with
          | Some (m, k) =>
              if 0 <=? k then binary64 neg (m * 10 ^ k) 1
              else binary64 neg m (10 ^ (- k))
          | None => NaN
          end
    end.

(** [Number(value)] where [value] is a string or [undefined] ([None]). *)
Definition Number (value : option string) : JsNumber :=
  match value with
  | Some s => StringToNumber s
  | None => NaN
  end.

(** ** Strings *)

(** ToBoolean on a string that may be [undefined]: [Some s] when truthy. *)
Definition truthy_string (x : option string) : option string :=
  match x with
  | Some s => if String.eqb s "" then None else Some s
  | None => None
  end.

(** [x ?? d] and [x || d]. *)
Definition nullish {A : Type} (x : option A) (d : A) : A :=
  match x with
  | Some v => v
  | None => d
  end.

Definition or_string (x : option string) (d : string) : string :=
  nullish (truthy_string x) d.

Definition or_Z (x : option Z) (d : Z) : Z :=
  match x with
  | Some n => if n =? 0 then d else n
  | None => d
  end.

(** [hay.includes(needle)]. *)
Fixpoint includes (needle hay : string) : bool :=
  if prefix needle hay then true
  else match hay with
       | EmptyString => false
       | String _ hay' => includes needle hay'
       end.

(** The integers that are numbers of JavaScript and that Number::toString
    prints digit by digit. *)
Definition safeInteger (n : Z) : Prop := Z.abs n <= 2 ^ 53 - 1.

(** An integer in a template literal: its decimal numeral, which is what
    Number::toString gives for a [safeInteger]. *)
Definition string_of_Z (z : Z) : string :=
  NilZero.string_of_int (Z.to_int z).

(** The digits after the point of [f / 1000], [0 < f < 1000]. *)
Definition thousandths (f : Z) : string :=
  let d1 := string_of_Z (f / 100) in
  let d2 := string_of_Z ((f / 10) mod 10) in
  let d3 := string_of_Z (f mod 10) in
  if negb (f mod 10 =? 0) then d1 ++ d2 ++ d3
  else if negb ((f / 10) mod 10 =? 0) then d1 ++ d2
  else d1.

(** The milliseconds whose thousandth Number::toString prints exactly: the
    quotient then has at most 15 significant digits, so its decimal numeral
    is the shortest one that reads back as the same binary64 value. *)
Definition exactlyPrinted (ms : Z) : Prop := Z.abs ms < 10 ^ 15.

(** [`${ms / 1000}`] for an integer [ms] that is [exactlyPrinted]: the
    quotient with its at most three decimals.  Beyond that bound the program
    prints a rounded quotient, and this text is not the program's: every
    statement that reads the text carries the bound. *)
Definition div1000_text (ms : Z) : string :=
  let a := Z.abs ms in
  (if ms <? 0 then "-" else "")
  ++ string_of_Z (a / 1000)
  ++ (if a mod 1000 =? 0 then "" else "." ++ thousandths (a mod 1000)).

(** The delay [setTimeout(f, ms)] waits in Node for an integer [ms]: a
    delay below 1 or above 2^31 - 1 is set to 1. *)
Definition timerDelay (ms : Z) : Z :=
  if (ms <? 1) || (2147483647 <? ms) then 1 else ms.

End Js.

(** ** Thrown values, promises and the race against a timer *)

Module JsError.

(** What a [catch] clause of the adapter reads from the value it caught.
    [message] is [None] when the property is undefined, which an instance of
    [Error] never has. *)
Record Cause : Type := mkCause {
  cause_code : option string;
  cause_message : option string
}.

Record t : Type := mk {
  message : option string;
  code : option string;
  status : option Z;
  statusCode : option Z;
  cause : option Cause
}.

(** [new Error(text)]. *)
Definition Error (text : string) : t :=
  {| message := Some text; code := None; status := None; statusCode := None;
     cause := None |}.

(** A value without a [message] in a template literal. *)
Definition object_text : string := "[object Object]".

(** [chunk.message.content] where [chunk.message] is undefined. *)
Definition TypeError_content : t :=
  Error "Cannot read properties of undefined (reading 'content')".

End JsError.

Abbreviation JsError := JsError.t.

Module Promise.

(** A promise by its fate: it stays pending for ever, or it settles a number
    of milliseconds after the call that made it. *)
Inductive t (A : Type) : Type :=
| Pending
| Fulfilled (after : Z) (value : A)
| Rejected (after : Z) (reason : JsError).

Arguments Pending {A}.
Arguments Fulfilled {A} after value.
Arguments Rejected {A} after reason.

(** [new Promise((_, reject) => setTimeout(() => reject(reason), ms))]. *)
Definition rejectAfter {A : Type} (ms : Z) (reason : JsError) : t A :=
  Rejected (Js.timerDelay ms) reason.

(** [Promise.race([p, q])] where [q] was made before [p], as the timer is
    made before the request (lines 50 and 55, 133 and 142): the one that
    settles first, and [q] on a tie. *)
Definition race {A : Type} (p q : t A) : t A :=
  match p, q with
  | Pending, _ => q
  | _, Pending => p
  | Fulfilled a _, Fulfilled b _
  | Fulfilled a _, Rejected b _
  | Rejected a _, Fulfilled b _
  | Rejected a _, Rejected b _ => if a <? b then p else q
  end.

End Promise.

(** * The types of the transport client (package [ollama]) and of the stream *)

(** A message of the request. *)
Record Message : Type := mkMessage {
  role : string;
  content : string
}.

Record ChatRequest : Type := mkChatRequest {
  model : string;
  messages : list Message;
  stream : bool;
  (** [options.num_ctx]; [None] when the request carries no [options]. *)
  num_ctx : option Js.JsNumber
}.

Module Response.

(** The message of a response, as the adapter reads it: [content] is
    [Some s] when [typeof content === "string"]. *)
Record Message : Type := mkMessage {
  content : option string
}.

(** A response, or one part of a streamed response.  [message] is [None]
    when the property is undefined; a counter is [None] when undefined. *)
Record ChatResponse : Type := mkChatResponse {
  message : option Message;
  eval_count : option Z;
  prompt_eval_count : option Z
}.

(** The async iterable of a streamed response: the parts it delivers and
    whether it then ends or throws. *)
Record Stream : Type := mkStream {
  parts : list ChatResponse;
  failure : option JsError
}.

End Response.

Abbreviation ChatResponse := Response.ChatResponse.
Abbreviation Stream := Response.Stream.

(** The client object, by what [chat] answers to a request with
    [stream: true] and to one with [stream: false]. *)
Record Ollama : Type := mkOllama {
  chat_streaming : ChatRequest -> Promise.t Stream;
  chat_complete : ChatRequest -> Promise.t ChatResponse
}.

(** [ApiStreamChunk] of [../transform/stream], the two shapes the adapter
    yields. *)
Inductive ApiStreamChunk : Type :=
| Text (text : string)
| Usage (inputTokens outputTokens : Z).

(** [ApiHandlerOptions], the fields the adapter reads. *)
Record ApiHandlerOptions : Type := mkOptions {
  ollamaBaseUrl : option string;
  ollamaModelId : option string;
  ollamaApiOptionsCtxNum : option string;
  requestTimeoutMs : option Z;
  ollamaUseStreaming : option bool
}.

(** [ModelInfo]: the context window, and the fields the adapter only copies. *)
Record ModelInfo (Rest : Type) : Type := mkModelInfo {
  contextWindow : Js.JsNumber;
  otherFields : Rest
}.

Arguments mkModelInfo {Rest} contextWindow otherFields.
Arguments contextWindow {Rest} _.
Arguments otherFields {Rest} _.

Record ModelDescriptor (Rest : Type) : Type := mkModelDescriptor {
  (** [None] is [undefined]. *)
  id : option string;
  info : ModelInfo Rest
}.

Arguments mkModelDescriptor {Rest} id info.
Arguments id {Rest} _.
Arguments info {Rest} _.

(** What the source file imports from the rest of the repository. *)
Class Imports : Type := {
  (** [Anthropic.Messages.MessageParam] *)
  MessageParam : Type;
  convertToOllamaMessages : list MessageParam -> list Message;
  ModelInfoRest : Type;
  openAiModelInfoSaneDefaults : ModelInfo ModelInfoRest
}.

(** * Async generators *)

Inductive Event : Type :=
| Chat (request : ChatRequest)
| Yield (chunk : ApiStreamChunk).

Inductive Completion (A : Type) : Type :=
| Return (value : A)
| Throw (error : JsError)
| Hang.

Arguments Return {A} value.
Arguments Throw {A} error.
Arguments Hang {A}.

(** A run: what happened, in order, and how it ended. *)
Definition Gen (A : Type) : Type := (list Event * Completion A)%type.

Definition ret {A : Type} (a : A) : Gen A := ([], Return a).

Definition bind {A B : Type} (m : Gen A) (k : A -> Gen B) : Gen B :=
  match m with
  | (tr, Return a) => let '(tr', c) := k a in ((tr ++ tr')%list, c)
  | (tr, Throw e) => (tr, Throw e)
  | (tr, Hang) => (tr, Hang)
  end.

Notation "x <- m ;; k" := (bind m (fun x => k))
  (at level 61, m at next level, right associativity).
Notation "m ;;; k" := (bind m (fun _ => k))
  (at level 61, right associativity).

Definition throw {A : Type} (e : JsError) : Gen A := ([], Throw e).

Definition yield (c : ApiStreamChunk) : Gen unit := ([Yield c], Return tt).

(** [try { m } catch (e) { handler e }]. *)
Definition try_catch {A : Type} (m : Gen A) (handler : JsError -> Gen A) : Gen A :=
  match m with
  | (tr, Throw e) => let '(tr', c) := handler e in ((tr ++ tr')%list, c)
  | _ => m
  end.

Definition when (b : bool) (m : Gen unit) : Gen unit :=
  if b then m else ret tt.

(** [await p]. *)
Definition await {A : Type} (p : Promise.t A) : Gen A :=
  match p with
  | Promise.Fulfilled _ v => ret v
  | Promise.Rejected _ e => throw e
  | Promise.Pending => ([], Hang)
  end.

(** [for await (const x of s) { body x }]. *)
Fixpoint for_await_parts (xs : list ChatResponse) (failure : option JsError)
    (body : ChatResponse -> Gen unit) : Gen unit :=
  match xs with
  | [] => match failure with
          | None => ret tt
          | Some e => throw e
          end
  | x :: xs' => body x ;;; for_await_parts xs' failure body
  end.

Definition for_await (s : Stream) (body : ChatResponse -> Gen unit) : Gen unit :=
  for_await_parts (Response.parts s) (Response.failure s) body.

(** The calls of [client.chat], which hand the request to the transport. *)
Definition chat_stream (client : Ollama) (request : ChatRequest) : Gen (Promise.t Stream) :=
  ([Chat request], Return (chat_streaming client request)).

Definition chat_once (client : Ollama) (request : ChatRequest) : Gen (Promise.t ChatResponse) :=
  ([Chat request], Return (chat_complete client request)).

(** [chunk.message.content], which throws when [chunk.message] is undefined. *)
Definition message_content (c : ChatResponse) : Gen (option string) :=
  match Response.message c with
  | Some m => ret (Response.content m)
  | None => throw JsError.TypeError_content
  end.

(** What a run yielded, what it asked of the transport, and what it threw. *)
Fixpoint yields (tr : list Event) : list ApiStreamChunk :=
  match tr with
  | [] => []
  | Yield c :: tr' => c :: yields tr'
  | Chat _ :: tr' => yields tr'
  end.

Fixpoint chats (tr : list Event) : list ChatRequest :=
  match tr with
  | [] => []
  | Chat r :: tr' => r :: chats tr'
  | Yield _ :: tr' => chats tr'
  end.

Definition emitted {A : Type} (g : Gen A) : list ApiStreamChunk := yields (fst g).
Definition requests {A : Type} (g : Gen A) : list ChatRequest := chats (fst g).
Definition outcome {A : Type} (g : Gen A) : Completion A := snd g.

(** * The adapter *)

(** An instance of [OllamaHandler]: both listings keep the options and the
    client. *)
Record OllamaHandler : Type := mkOllamaHandler {
  options : ApiHandlerOptions;
  client : Ollama
}.

(** What the client that the package builds for a [host] option answers,
    and [new Ollama({ host })] on top of it.  How the package reads the
    option (it completes a bare host and replaces an empty one) is the
    package's, and part of the [Network]. *)
Record Server : Type := mkServer {
  answer_stream : ChatRequest -> Promise.t Stream;
  answer : ChatRequest -> Promise.t ChatResponse
}.

Definition Network : Type := string -> Server.

Definition new_Ollama (net : Network) (h : string) : Ollama :=
  {| chat_streaming := answer_stream (net h);
     chat_complete := answer (net h) |}.

Definition defaultBaseUrl : string := "http://localhost:11434".

Definition timedOutText (timeoutMs : Z) : string :=
  "Ollama request timed out after " ++ Js.div1000_text timeoutMs ++ " seconds".

Definition defined {A : Type} (x : option A) : bool :=
  match x with
  | Some _ => true
  | None => false
  end.

(** ** First listing (lines 32-108) *)

Module Strict.
Section WithImports.
Context {imports : Imports}.

Definition constructor (net : Network) (options : ApiHandlerOptions) : OllamaHandler :=
  {| options := options;
     client := new_Ollama net (Js.nullish (ollamaBaseUrl options) defaultBaseUrl) |}.

(** The [catch] clause of lines 64-77. *)
Definition diagnose (this : OllamaHandler) (err : JsError) : JsError :=
  let '(cause_code, cause_message) :=
    match JsError.cause err with
    | Some c => (JsError.cause_code c, JsError.cause_message c)
    | None => (JsError.code err, JsError.message err)
    end in
  match Js.truthy_string cause_code with
  | Some code =>
      JsError.Error
        ("Could not reach Ollama at "
         ++ Js.nullish (ollamaBaseUrl (options this)) defaultBaseUrl
         ++ " — " ++ code ++ ": " ++ Js.nullish cause_message JsError.object_text)
  | None =>
      let statusCode :=
        match JsError.status err, JsError.statusCode err with
        | Some s, _ => Js.string_of_Z s
        | None, Some s => Js.string_of_Z s
        | None, None => "unknown"
        end in
      JsError.Error
        ("Ollama API error (" ++ statusCode ++ "): "
         ++ Js.nullish (JsError.message err) JsError.object_text)
  end.

(** The body of the loop of lines 80-93. *)
Definition onChunk (chunk : ChatResponse) : Gen unit :=
  content <- message_content chunk ;;
  match content with
  | Some text => yield (Text text)
  | None => ret tt
  end ;;;
  when (defined (Response.eval_count chunk) || defined (Response.prompt_eval_count chunk))
    (yield (Usage (Js.nullish (Response.prompt_eval_count chunk) 0)
                  (Js.nullish (Response.eval_count chunk) 0))).

Definition createMessage (this : OllamaHandler) (systemPrompt : string)
    (messages : list MessageParam) : Gen unit :=
  match Js.truthy_string (ollamaModelId (options this)) with
  | None => throw (JsError.Error "Ollama model id is required")
  | Some modelId =>
      let ollamaMessages :=
        {| role := "system"; content := systemPrompt |} :: convertToOllamaMessages messages in
      let timeoutMs := Js.nullish (requestTimeoutMs (options this)) 30000 in
      let timeoutPromise :=
        Promise.rejectAfter timeoutMs (JsError.Error (timedOutText timeoutMs)) in
      apiPromise <- chat_stream (client this)
                      {| model := modelId; messages := ollamaMessages;
                         stream := true; num_ctx := None |} ;;
      stream <- try_catch (await (Promise.race apiPromise timeoutPromise))
                  (fun err => throw (diagnose this err)) ;;
      for_await stream onChunk
  end.

Definition getModel (this : OllamaHandler) : ModelDescriptor ModelInfoRest :=
  let id := ollamaModelId (options this) in
  {| id := id;
     info :=
       match Js.truthy_string (ollamaApiOptionsCtxNum (options this)) with
       | Some ctx =>
           {| contextWindow := Js.or_number (Js.Number (Some ctx)) (Js.ofZ 32768);
              otherFields := otherFields openAiModelInfoSaneDefaults |}
       | None => openAiModelInfoSaneDefaults
       end |}.

End WithImports.
End Strict.

(** ** Second listing (lines 117-233) *)

Module Second.
Section WithImports.
Context {imports : Imports}.

Definition constructor (net : Network) (options : ApiHandlerOptions) : OllamaHandler :=
  {| options := options;
     client := new_Ollama net (Js.or_string (ollamaBaseUrl options) defaultBaseUrl) |}.

Definition getModel (this : OllamaHandler) : ModelDescriptor ModelInfoRest :=
  {| id := Some (Js.or_string (ollamaModelId (options this)) "");
     info :=
       match Js.truthy_string (ollamaApiOptionsCtxNum (options this)) with
       | Some ctx =>
           {| contextWindow := Js.or_number (Js.Number (Some ctx)) (Js.ofZ 32768);
              otherFields := otherFields openAiModelInfoSaneDefaults |}
       | None => openAiModelInfoSaneDefaults
       end |}.

(** The text and usage steps, the same for a part of a stream (lines 157-171)
    and for a complete response (lines 193-207). *)
Definition onResponse (response : ChatResponse) : Gen unit :=
  content <- message_content response ;;
  match content with
  | Some text => yield (Text text)
  | None => ret tt
  end ;;;
  when (defined (Response.eval_count response)
        || defined (Response.prompt_eval_count response))
    (yield (Usage (Js.or_Z (Response.prompt_eval_count response) 0)
                  (Js.or_Z (Response.eval_count response) 0))).

(** The [catch] clause of lines 173-176. *)
Definition onStreamError (streamError : JsError) : Gen unit :=
  throw (JsError.Error
           ("Ollama stream processing error: "
            ++ Js.or_string (JsError.message streamError) "Unknown error")).

(** The [catch] clause of lines 209-222. *)
Definition onError (this : OllamaHandler) (error : JsError) : Gen unit :=
  match Js.truthy_string (JsError.message error) with
  | Some text =>
      if Js.includes "timed out" text then
        let timeoutMs := Js.or_Z (requestTimeoutMs (options this)) 30000 in
        throw (JsError.Error (timedOutText timeoutMs))
      else throw error
  | None => throw error
  end.

Definition idText (this : OllamaHandler) : string :=
  Js.nullish (id (getModel this)) "".

Definition createMessage (this : OllamaHandler) (systemPrompt : string)
    (messages : list MessageParam) : Gen unit :=
  let ollamaMessages :=
    {| role := "system"; content := systemPrompt |} :: convertToOllamaMessages messages in
  try_catch
    (let timeoutMs := Js.or_Z (requestTimeoutMs (options this)) 60000 in
     let timeoutPromise {A : Type} : Promise.t A :=
       Promise.rejectAfter timeoutMs (JsError.Error (timedOutText timeoutMs)) in
     let useStreaming := Js.nullish (ollamaUseStreaming (options this)) true in
     let num_ctx :=
       Js.or_number (Js.Number (ollamaApiOptionsCtxNum (options this))) (Js.ofZ 32768) in
     if useStreaming then
       apiPromise <- chat_stream (client this)
                       {| model := idText this; messages := ollamaMessages;
                          stream := true; num_ctx := Some num_ctx |} ;;
       stream <- await (Promise.race apiPromise timeoutPromise) ;;
       try_catch (for_await stream onResponse) onStreamError
     else
       apiPromise <- chat_once (client this)
                       {| model := idText this; messages := ollamaMessages;
                          stream := false; num_ctx := Some num_ctx |} ;;
       response <- await (Promise.race apiPromise timeoutPromise) ;;
       onResponse response)
    (onError this).

End WithImports.
End Second.

(** * Reading the runs *)

(** The chunks one part of a response gives rise to, as a function of the
    part: the text when the content is a string, then the usage when a
    counter is reported.  [consume] is the whole loop over a stream. *)
Definition textChunks (c : ChatResponse) : list ApiStreamChunk :=
  match Response.message c with
  | Some m => match Response.content m with
              | Some text => [Text text]
              | None => []
              end
  | None => []
  end.

Definition reportsCounters (c : ChatResponse) : bool :=
  defined (Response.eval_count c) || defined (Response.prompt_eval_count c).

Definition usageChunks (c : ChatResponse) : list ApiStreamChunk :=
  if reportsCounters c
  then [Usage (Js.nullish (Response.prompt_eval_count c) 0)
              (Js.nullish (Response.eval_count c) 0)]
  else [].

Definition partChunks (c : ChatResponse) : list ApiStreamChunk :=
  (textChunks c ++ usageChunks c)%list.

Fixpoint consume (parts : list ChatResponse) (failure : option JsError)
  : list ApiStreamChunk * Completion unit :=
  match parts with
  | [] => ([], match failure with
               | None => Return tt
               | Some e => Throw e
               end)
  | c :: parts' =>
      match Response.message c with
      | None => ([], Throw JsError.TypeError_content)
      | Some _ => let '(ys, o) := consume parts' failure in
                  ((partChunks c ++ ys)%list, o)
      end
  end.

(** ** Decimal numerals *)

(** The digits of a numeral, and the value [Js.digits] reads from the
    numeral of a [Decimal.uint], on top of [acc]. *)
Definition isDigit (c : ascii) : bool :=
  let n := Z.of_nat (nat_of_ascii c) in (48 <=? n) && (n <=? 57).

Fixpoint allDigits (s : string) : bool :=
  match s with
  | EmptyString => true
  | String c s' => isDigit c && allDigits s'
  end.

Fixpoint uint_acc (d : Decimal.uint) (acc : Z) : Z :=
  match d with
  | Decimal.Nil => acc
  | Decimal.D0 l => uint_acc l (10 * acc + 0)
  | Decimal.D1 l => uint_acc l (10 * acc + 1)
  | Decimal.D2 l => uint_acc l (10 * acc + 2)
  | Decimal.D3 l => uint_acc l (10 * acc + 3)
  | Decimal.D4 l => uint_acc l (10 * acc + 4)
  | Decimal.D5 l => uint_acc l (10 * acc + 5)
  | Decimal.D6 l => uint_acc l (10 * acc + 6)
  | Decimal.D7 l => uint_acc l (10 * acc + 7)
  | Decimal.D8 l => uint_acc l (10 * acc + 8)
  | Decimal.D9 l => uint_acc l (10 * acc + 9)
  end.

(** ** What the two listings build, by name *)

Section RunDefinitions.
Context {imports : Imports}.
Variables (this : OllamaHandler) (systemPrompt : string) (conversation : list MessageParam).

(** The message list and the requests the two listings build. *)
Definition sentMessages : list Message :=
  {| role := "system"; content := systemPrompt |} :: convertToOllamaMessages conversation.

Definition Strict_request (modelId : string) : ChatRequest :=
  {| model := modelId; messages := sentMessages; stream := true; num_ctx := None |}.

Definition Second_request (streaming : bool) : ChatRequest :=
  {| model := Js.or_string (ollamaModelId (options this)) "";
     messages := sentMessages;
     stream := streaming;
     num_ctx := Some (Js.or_number (Js.Number (ollamaApiOptionsCtxNum (options this)))
                                   (Js.ofZ 32768)) |}.

(** The delay of the timer in each listing. *)
Definition Strict_timeoutMs : Z := Js.nullish (requestTimeoutMs (options this)) 30000.
Definition Second_timeoutMs : Z := Js.or_Z (requestTimeoutMs (options this)) 60000.

Definition timer {A : Type} (timeoutMs : Z) : Promise.t A :=
  Promise.rejectAfter timeoutMs (JsError.Error (timedOutText timeoutMs)).

(** What the outer [catch] clause of the second listing throws. *)
Definition Second_rethrown (error : JsError) : JsError :=
  match Js.truthy_string (JsError.message error) with
  | Some text =>
      if Js.includes "timed out" text
      then JsError.Error (timedOutText (Js.or_Z (requestTimeoutMs (options this)) 30000))
      else error
  | None => error
  end.

Definition streamProcessingError (streamError : JsError) : JsError :=
  JsError.Error ("Ollama stream processing error: "
                 ++ Js.or_string (JsError.message streamError) "Unknown error").

End RunDefinitions.

(** The request has not settled before the timer fires, [delay] ms after
    it was set. *)
Definition unsettledAt {A : Type} (delay : Z) (p : Promise.t A) : Prop :=
  match p with
  | Promise.Pending => True
  | Promise.Fulfilled t _ | Promise.Rejected t _ => delay <= t
  end.

(** A part of a response that carries a message: its content ([None] when
    it is not a string) and its two counters. *)
Definition part (content : option string) (eval_count prompt_eval_count : option Z)
  : ChatResponse :=
  {| Response.message := Some {| Response.content := content |};
     Response.eval_count := eval_count;
     Response.prompt_eval_count := prompt_eval_count |}.

Definition textPart (text : string) : ChatResponse := part (Some text) None None.

(** * Sample collaborators, handlers and servers *)

Module Samples.

(** A converter that sends every text of the conversation as a user message,
    and a default record with a window of 128000. *)
Definition imports : Imports :=
  {| MessageParam := string;
     convertToOllamaMessages := map (fun text => {| role := "user"; content := text |});
     ModelInfoRest := unit;
     openAiModelInfoSaneDefaults :=
       {| contextWindow := Js.ofZ 128000; otherFields := tt |} |}.

Definition noOptions : ApiHandlerOptions :=
  {| ollamaBaseUrl := None; ollamaModelId := None; ollamaApiOptionsCtxNum := None;
     requestTimeoutMs := None; ollamaUseStreaming := None |}.

Definition llama : ApiHandlerOptions :=
  {| ollamaBaseUrl := None; ollamaModelId := Some "llama3"; ollamaApiOptionsCtxNum := None;
     requestTimeoutMs := None; ollamaUseStreaming := None |}.

Definition withCtxNum (ctx : string) : ApiHandlerOptions :=
  {| ollamaBaseUrl := None; ollamaModelId := Some "llama3";
     ollamaApiOptionsCtxNum := Some ctx;
     requestTimeoutMs := None; ollamaUseStreaming := None |}.

Definition notStreaming : ApiHandlerOptions :=
  {| ollamaBaseUrl := None; ollamaModelId := Some "llama3"; ollamaApiOptionsCtxNum := None;
     requestTimeoutMs := None; ollamaUseStreaming := Some false |}.

(** Servers: one that never answers, one that answers every request with the
    same promise. *)
Definition silent : Network :=
  fun _ => {| answer_stream := fun _ => Promise.Pending;
              answer := fun _ => Promise.Pending |}.

Definition streams (p : Promise.t Stream) : Network :=
  fun _ => {| answer_stream := fun _ => p; answer := fun _ => Promise.Pending |}.

(** A server that delivers its stream 45 seconds after the request. *)
Definition late : Network :=
  streams (Promise.Fulfilled 45000
             {| Response.parts := [textPart "late"]; Response.failure := None |}).

Definition answers (p : Promise.t ChatResponse) : Network :=
  fun _ => {| answer_stream := fun _ => Promise.Pending; answer := fun _ => p |}.

(** The error of a refused connection, as [fetch] raises it. *)
Definition fetchFailed : JsError :=
  {| JsError.message := Some "fetch failed"; JsError.code := None;
     JsError.status := None; JsError.statusCode := None;
     JsError.cause := Some {| JsError.cause_code := Some "ECONNREFUSED";
                              JsError.cause_message :=
                                Some "connect ECONNREFUSED 127.0.0.1:11434" |} |}.

(** A server that refuses every request after 5 ms. *)
Definition refuses (e : JsError) : Network :=
  fun _ => {| answer_stream := fun _ => Promise.Rejected 5 e;
              answer := fun _ => Promise.Rejected 5 e |}.

(** The stream of the example: "a", "b", then a final part. *)
Definition abThen (final : ChatResponse) : Stream :=
  {| Response.parts := [textPart "a"; textPart "b"; final]; Response.failure := None |}.

(** Handlers: the constructors of the two listings agree on these options. *)
Definition streaming (s : Stream) : OllamaHandler :=
  Strict.constructor (streams (Promise.Fulfilled 10 s)) llama.

Definition complete (r : ChatResponse) : OllamaHandler :=
  Second.constructor (answers (Promise.Fulfilled 10 r)) notStreaming.

Definition refused : OllamaHandler :=
  Strict.constructor (refuses fetchFailed) llama.

Definition configured (ctx : string) : OllamaHandler :=
  Strict.constructor silent (withCtxNum ctx).

Definition conversation : list string := ["hello"].

(** A stream that delivers "a" and then throws. *)
Definition broken (text : string) : Stream :=
  {| Response.parts := [textPart "a"]; Response.failure := Some (JsError.Error text) |}.

(** Options with a timeout of [ms] milliseconds. *)
Definition withTimeout (ms : Z) : ApiHandlerOptions :=
  {| ollamaBaseUrl := None; ollamaModelId := Some "llama3"; ollamaApiOptionsCtxNum := None;
     requestTimeoutMs := Some ms; ollamaUseStreaming := None |}.

(** An error that carries a code, with a cause that carries none. *)
Definition resetByPeer : JsError :=
  {| JsError.message := Some "fetch failed"; JsError.code := Some "ECONNRESET";
     JsError.status := Some 502; JsError.statusCode := None;
     JsError.cause := Some {| JsError.cause_code := None;
                              JsError.cause_message := Some "socket closed" |} |}.

(** The error of a connection attempt that the system gave up. *)
Definition connectTimedOut : JsError :=
  {| JsError.message := Some "connect timed out"; JsError.code := Some "ETIMEDOUT";
     JsError.status := None; JsError.statusCode := None; JsError.cause := None |}.

End Samples.

(** * Lemmas on runs *)

Section TraceLemmas.

Lemma yields_app (tr tr' : list Event) :
  yields (tr ++ tr') = (yields tr ++ yields tr')%list.
Proof.
  induction tr as [|[r|c] tr IH]; simpl; [reflexivity|assumption|now rewrite IH].
Qed.

Lemma chats_app (tr tr' : list Event) :
  chats (tr ++ tr') = (chats tr ++ chats tr')%list.
Proof.
  induction tr as [|[r|c] tr IH]; simpl; [reflexivity|now rewrite IH|assumption].
Qed.

Lemma yields_map_Yield (cs : list ApiStreamChunk) : yields (map Yield cs) = cs.
Proof. induction cs as [|c cs IH]; simpl; [reflexivity|now rewrite IH]. Qed.

Lemma chats_map_Yield (cs : list ApiStreamChunk) : chats (map Yield cs) = [].
Proof. induction cs as [|c cs IH]; simpl; [reflexivity|assumption]. Qed.

Lemma or_Z_zero (x : option Z) : Js.or_Z x 0 = Js.nullish x 0.
Proof.
  destruct x as [n|]; simpl; [|reflexivity].
  destruct (Z.eqb_spec n 0); congruence.
Qed.

(** One turn of either loop body yields the chunks of the part. *)
Lemma Strict_onChunk_run (c : ChatResponse) :
  Strict.onChunk c =
  match Response.message c with
  | Some _ => (map Yield (partChunks c), Return tt)
  | None => ([], Throw JsError.TypeError_content)
  end.
Proof.
  unfold Strict.onChunk, message_content, partChunks, textChunks, usageChunks,
    reportsCounters.
  destruct (Response.message c) as [m|]; [|reflexivity].
  destruct (Response.content m);
    destruct (defined (Response.eval_count c) || defined (Response.prompt_eval_count c));
    reflexivity.
Qed.

Lemma Second_onResponse_run (c : ChatResponse) :
  Second.onResponse c =
  match Response.message c with
  | Some _ => (map Yield (partChunks c), Return tt)
  | None => ([], Throw JsError.TypeError_content)
  end.
Proof.
  unfold Second.onResponse, message_content, partChunks, textChunks, usageChunks,
    reportsCounters.
  rewrite !or_Z_zero.
  destruct (Response.message c) as [m|]; [|reflexivity].
  destruct (Response.content m);
    destruct (defined (Response.eval_count c) || defined (Response.prompt_eval_count c));
    reflexivity.
Qed.

(** The loop, for any body that behaves as the two bodies do. *)
Lemma for_await_parts_run (body : ChatResponse -> Gen unit)
    (Hbody : forall c, body c =
                       match Response.message c with
                       | Some _ => (map Yield (partChunks c), Return tt)
                       | None => ([], Throw JsError.TypeError_content)
                       end)
    (parts : list ChatResponse) (failure : option JsError) :
  for_await_parts parts failure body =
  (map Yield (fst (consume parts failure)), snd (consume parts failure)).
Proof.
  induction parts as [|c parts IH]; simpl.
  - destruct failure; reflexivity.
  - rewrite Hbody, IH. unfold bind.
    destruct (Response.message c); [|reflexivity].
    destruct (consume parts failure) as [ys o]. simpl.
    now rewrite map_app.
Qed.

Lemma Strict_for_await (s : Stream) :
  for_await s Strict.onChunk =
  (map Yield (fst (consume (Response.parts s) (Response.failure s))),
   snd (consume (Response.parts s) (Response.failure s))).
Proof. apply for_await_parts_run, Strict_onChunk_run. Qed.

Lemma Second_for_await (s : Stream) :
  for_await s Second.onResponse =
  (map Yield (fst (consume (Response.parts s) (Response.failure s))),
   snd (consume (Response.parts s) (Response.failure s))).
Proof. apply for_await_parts_run, Second_onResponse_run. Qed.

(** The loop never hangs, and what it read before a failure stays read. *)
Lemma consume_never_hangs (parts : list ChatResponse) (failure : option JsError) :
  snd (consume parts failure) <> Hang.
Proof.
  induction parts as [|c parts IH]; simpl.
  - destruct failure; discriminate.
  - destruct (Response.message c); [|discriminate].
    destruct (consume parts failure); assumption.
Qed.

Lemma consume_app (parts more : list ChatResponse) (failure failure' : option JsError) :
  exists rest : list ApiStreamChunk,
    fst (consume (parts ++ more) failure') = (fst (consume parts failure) ++ rest)%list.
Proof.
  induction parts as [|c parts [rest IH]]; simpl.
  - now exists (fst (consume more failure')).
  - destruct (Response.message c); [|now exists []].
    destruct (consume (parts ++ more) failure') as [ys o].
    destruct (consume parts failure) as [ys' o']. simpl in *.
    exists rest. now rewrite IH, app_assoc.
Qed.

Lemma consume_split (before after : list ChatResponse) (c : ChatResponse)
    (failure : option JsError) :
  snd (consume before None) = Return tt ->
  Response.message c <> None ->
  fst (consume (before ++ c :: after) failure) =
  (fst (consume before None) ++ partChunks c ++ fst (consume after failure))%list.
Proof.
  intros Hbefore Hc. induction before as [|b before IH]; simpl in *.
  - destruct (Response.message c); [|congruence].
    now destruct (consume after failure).
  - destruct (Response.message b); [|discriminate].
    destruct (consume before None) as [ys o].
    destruct (consume (before ++ c :: after) failure) as [ys' o']. simpl in *.
    now rewrite (IH Hbefore), app_assoc.
Qed.

Lemma append_assoc (a b c : string) : (a ++ b) ++ c = a ++ b ++ c.
Proof. induction a as [|x a IH]; simpl; [reflexivity|now rewrite IH]. Qed.

(** A string includes what it was built around. *)
Lemma prefix_app (p s : string) : prefix p (p ++ s) = true.
Proof.
  induction p as [|a p IH]; simpl; [now destruct s|].
  destruct (ascii_dec a a); [assumption|congruence].
Qed.

Lemma includes_prefix (needle hay : string) :
  prefix needle hay = true -> Js.includes needle hay = true.
Proof. intros Hprefix. destruct hay; cbn [Js.includes]; now rewrite Hprefix. Qed.

Lemma includes_app (needle a b : string) :
  Js.includes needle (a ++ needle ++ b) = true.
Proof.
  induction a as [|c a IH].
  - change ("" ++ needle ++ b) with (needle ++ b).
    apply includes_prefix, prefix_app.
  - change (String c a ++ needle ++ b) with (String c (a ++ needle ++ b)).
    cbn [Js.includes]. now destruct (prefix needle _).
Qed.

End TraceLemmas.

(** ** The runs of [createMessage], case by case *)

Section Runs.
Context {imports : Imports}.
Variables (this : OllamaHandler) (systemPrompt : string) (conversation : list MessageParam).

Lemma Second_onError_run (error : JsError) :
  Second.onError this error = ([], Throw (Second_rethrown this error)).
Proof.
  unfold Second.onError, Second_rethrown, throw.
  destruct (Js.truthy_string (JsError.message error)) as [text|]; [|reflexivity].
  destruct (Js.includes "timed out" text); reflexivity.
Qed.

Lemma Strict_createMessage_run :
  Strict.createMessage this systemPrompt conversation =
  match Js.truthy_string (ollamaModelId (options this)) with
  | None => ([], Throw (JsError.Error "Ollama model id is required"))
  | Some modelId =>
      let request := Strict_request systemPrompt conversation modelId in
      match Promise.race (chat_streaming (client this) request)
                         (timer (Strict_timeoutMs this)) with
      | Promise.Fulfilled _ s =>
          (Chat request
             :: map Yield (fst (consume (Response.parts s) (Response.failure s))),
           snd (consume (Response.parts s) (Response.failure s)))
      | Promise.Rejected _ err => ([Chat request], Throw (Strict.diagnose this err))
      | Promise.Pending => ([Chat request], Hang)
      end
  end.
Proof.
  unfold Strict.createMessage.
  destruct (Js.truthy_string (ollamaModelId (options this))) as [modelId|]; [|reflexivity].
  unfold Strict_request, sentMessages, Strict_timeoutMs, timer. cbv zeta.
  unfold chat_stream, bind at 1.
  destruct (Promise.race _ _) as [|t s|t err]; simpl; try reflexivity.
  rewrite Strict_for_await. reflexivity.
Qed.

Lemma Second_createMessage_run :
  Second.createMessage this systemPrompt conversation =
  if Js.nullish (ollamaUseStreaming (options this)) true then
    let request := Second_request this systemPrompt conversation true in
    match Promise.race (chat_streaming (client this) request)
                       (timer (Second_timeoutMs this)) with
    | Promise.Fulfilled _ s =>
        (Chat request
           :: map Yield (fst (consume (Response.parts s) (Response.failure s))),
         match snd (consume (Response.parts s) (Response.failure s)) with
         | Throw streamError =>
             Throw (Second_rethrown this (streamProcessingError streamError))
         | o => o
         end)
    | Promise.Rejected _ err => ([Chat request], Throw (Second_rethrown this err))
    | Promise.Pending => ([Chat request], Hang)
    end
  else
    let request := Second_request this systemPrompt conversation false in
    match Promise.race (chat_complete (client this) request)
                       (timer (Second_timeoutMs this)) with
    | Promise.Fulfilled _ response =>
        match Response.message response with
        | Some _ => (Chat request :: map Yield (partChunks response), Return tt)
        | None => ([Chat request], Throw (Second_rethrown this JsError.TypeError_content))
        end
    | Promise.Rejected _ err => ([Chat request], Throw (Second_rethrown this err))
    | Promise.Pending => ([Chat request], Hang)
    end.
Proof.
  unfold Second.createMessage.
  change (Second.idText this) with (Js.or_string (ollamaModelId (options this)) "").
  unfold Second_request, sentMessages, Second_timeoutMs, timer. cbv zeta.
  destruct (Js.nullish (ollamaUseStreaming (options this)) true).
  - unfold chat_stream, bind at 1.
    destruct (Promise.race _ _) as [|t s|t err]; simpl.
    + reflexivity.
    + rewrite Second_for_await.
      destruct (snd (consume (Response.parts s) (Response.failure s))) as [[]|e|] eqn:Ho;
        simpl; rewrite ?Ho; try reflexivity.
      unfold Second.onStreamError, throw. fold (streamProcessingError e).
      rewrite Second_onError_run. simpl. rewrite !app_nil_r. reflexivity.
    + now rewrite Second_onError_run.
  - unfold chat_once, bind at 1.
    destruct (Promise.race _ _) as [|t response|t err]; simpl.
    + reflexivity.
    + rewrite Second_onResponse_run.
      destruct (Response.message response); reflexivity.
    + now rewrite Second_onError_run.
Qed.

End Runs.

(** ** The race against the timer, and the requests of a run *)

Section RaceLemmas.
Context {A : Type}.

Lemma race_fulfilled_in_time (t timeoutMs : Z) (v : A) :
  t < Js.timerDelay timeoutMs ->
  Promise.race (Promise.Fulfilled t v) (timer timeoutMs) = Promise.Fulfilled t v.
Proof.
  intros Ht. unfold timer, Promise.rejectAfter. simpl.
  destruct (Z.ltb_spec t (Js.timerDelay timeoutMs)); [reflexivity|lia].
Qed.

Lemma race_rejected_in_time (t timeoutMs : Z) (err : JsError) :
  t < Js.timerDelay timeoutMs ->
  Promise.race (Promise.Rejected t err) (@timer A timeoutMs) = Promise.Rejected t err.
Proof.
  intros Ht. unfold timer, Promise.rejectAfter. simpl.
  destruct (Z.ltb_spec t (Js.timerDelay timeoutMs)); [reflexivity|lia].
Qed.

Lemma race_unsettled (timeoutMs : Z) (p : Promise.t A) :
  unsettledAt (Js.timerDelay timeoutMs) p ->
  Promise.race p (timer timeoutMs) =
  Promise.Rejected (Js.timerDelay timeoutMs) (JsError.Error (timedOutText timeoutMs)).
Proof.
  unfold timer, Promise.rejectAfter.
  destruct p as [|t v|t e]; simpl; intros Ht; [reflexivity| |];
    destruct (Z.ltb_spec t (Js.timerDelay timeoutMs)); (reflexivity || lia).
Qed.

(** The race with the timer always settles. *)
Lemma race_settles (timeoutMs : Z) (p : Promise.t A) :
  Promise.race p (timer timeoutMs) <> Promise.Pending.
Proof.
  unfold timer, Promise.rejectAfter.
  destruct p as [|t v|t e]; simpl; try discriminate;
    destruct (t <? Js.timerDelay timeoutMs); discriminate.
Qed.

(** The delay of the timer is the configured timeout when that is between
    1 and 2^31 - 1. *)
Lemma timerDelay_in_range (ms : Z) :
  1 <= ms <= 2147483647 -> Js.timerDelay ms = ms.
Proof.
  intros Hms. unfold Js.timerDelay.
  destruct (Z.ltb_spec ms 1); [lia|].
  destruct (Z.ltb_spec 2147483647 ms); [lia|reflexivity].
Qed.

End RaceLemmas.

Section Requests.
Context {imports : Imports}.
Variables (this : OllamaHandler) (systemPrompt : string) (conversation : list MessageParam).

Lemma Strict_requests :
  requests (Strict.createMessage this systemPrompt conversation) =
  match Js.truthy_string (ollamaModelId (options this)) with
  | Some modelId => [Strict_request systemPrompt conversation modelId]
  | None => []
  end.
Proof.
  rewrite Strict_createMessage_run. unfold requests.
  destruct (Js.truthy_string (ollamaModelId (options this))); [|reflexivity].
  cbv zeta. destruct (Promise.race _ _); simpl; try reflexivity.
  now rewrite chats_map_Yield.
Qed.

Lemma Second_requests :
  requests (Second.createMessage this systemPrompt conversation) =
  [Second_request this systemPrompt conversation
     (Js.nullish (ollamaUseStreaming (options this)) true)].
Proof.
  rewrite Second_createMessage_run. unfold requests.
  destruct (Js.nullish (ollamaUseStreaming (options this)) true); cbv zeta;
    destruct (Promise.race _ _) as [|t r|t e]; simpl; try reflexivity.
  - now rewrite chats_map_Yield.
  - destruct (Response.message r); simpl; [|reflexivity].
    now rewrite chats_map_Yield.
Qed.

End Requests.

(** ** [Number] on the decimal numeral of a positive integer *)

Lemma digits_string_of_uint (d : Decimal.uint) (acc cnt : Z) :
  Js.digits 10 acc cnt (NilEmpty.string_of_uint d)
  = (uint_acc d acc, cnt + Z.of_nat (Decimal.nb_digits d), "").
Proof.
  revert acc cnt.
  induction d; intros acc cnt; cbn [NilEmpty.string_of_uint Js.digits uint_acc Decimal.nb_digits];
    [f_equal; f_equal; lia|..];
    (change (Js.digit_value 10 _) with (Some 0) ||
     change (Js.digit_value 10 _) with (Some 1) ||
     change (Js.digit_value 10 _) with (Some 2) ||
     change (Js.digit_value 10 _) with (Some 3) ||
     change (Js.digit_value 10 _) with (Some 4) ||
     change (Js.digit_value 10 _) with (Some 5) ||
     change (Js.digit_value 10 _) with (Some 6) ||
     change (Js.digit_value 10 _) with (Some 7) ||
     change (Js.digit_value 10 _) with (Some 8) ||
     change (Js.digit_value 10 _) with (Some 9));
    cbv iota; rewrite IHd; f_equal; f_equal; lia.
Qed.

Lemma of_uint_acc_value (d : Decimal.uint) (acc : positive) :
  Z.pos (Pos.of_uint_acc d acc) = uint_acc d (Z.pos acc).
Proof.
  revert acc. induction d; intros acc; cbn [Pos.of_uint_acc uint_acc]; [reflexivity|..];
    rewrite IHd; f_equal; lia.
Qed.

Lemma of_uint_value (d : Decimal.uint) : Z.of_N (Pos.of_uint d) = uint_acc d 0.
Proof.
  induction d; cbn [Pos.of_uint uint_acc]; [reflexivity|assumption|..];
    cbn [Z.of_N]; rewrite of_uint_acc_value; reflexivity.
Qed.

Lemma uint_acc_to_uint (p : positive) : uint_acc (Pos.to_uint p) 0 = Z.pos p.
Proof. now rewrite <- of_uint_value, Unsigned.of_to. Qed.

Lemma allDigits_string_of_uint (d : Decimal.uint) :
  allDigits (NilEmpty.string_of_uint d) = true.
Proof. induction d; simpl; [reflexivity|..]; assumption. Qed.

Lemma isDigit_cases (c : ascii) :
  isDigit c = true ->
  In c ["0"; "1"; "2"; "3"; "4"; "5"; "6"; "7"; "8"; "9"]%char.
Proof.
  destruct c as [[] [] [] [] [] [] [] []]; intros H; try (cbv in H; discriminate H);
    simpl; tauto.
Qed.

Ltac digit_cases H :=
  apply isDigit_cases in H; cbn [In] in H;
  repeat (destruct H as [<-|H]); [..|contradiction].

Lemma trim_start_stuck (ws : list string) (fuel : nat) (s : string) :
  Js.strip_any ws s = None -> Js.trim_start ws fuel s = s.
Proof. intros H. destruct fuel; simpl; [reflexivity|now rewrite H]. Qed.

Lemma strip_any_digit (c : ascii) (s : string) :
  isDigit c = true ->
  Js.strip_any Js.StrWhiteSpaceChar (String c s) = None
  /\ Js.strip_any (map Js.rev_string Js.StrWhiteSpaceChar) (String c s) = None.
Proof. intros H. digit_cases H; split; reflexivity. Qed.

Lemma rev_string_involutive (s : string) : Js.rev_string (Js.rev_string s) = s.
Proof.
  unfold Js.rev_string.
  now rewrite list_ascii_of_string_of_list_ascii, rev_involutive,
    string_of_list_ascii_of_string.
Qed.

Lemma allDigits_Forall (s : string) :
  allDigits s = true <-> Forall (fun c => isDigit c = true) (list_ascii_of_string s).
Proof.
  induction s as [|c s IH]; simpl.
  - split; [constructor|reflexivity].
  - rewrite andb_true_iff, IH. split.
    + intros [Hc Hs]. now constructor.
    + intros H. inversion H. now split.
Qed.

Lemma rev_string_digits (s : string) :
  s <> "" -> allDigits s = true ->
  exists c s', Js.rev_string s = String c s' /\ isDigit c = true.
Proof.
  intros Hne Hd. apply allDigits_Forall, Forall_rev in Hd.
  unfold Js.rev_string.
  destruct (rev (list_ascii_of_string s)) as [|c l] eqn:Hrev.
  - exfalso. apply Hne. rewrite <- (string_of_list_ascii_of_string s).
    rewrite <- (rev_involutive (list_ascii_of_string s)), Hrev. reflexivity.
  - exists c, (string_of_list_ascii l). split; [reflexivity|]. now inversion Hd.
Qed.

Lemma trim_digits (s : string) :
  s <> "" -> allDigits s = true -> Js.trim s = s.
Proof.
  intros Hne Hd. unfold Js.trim.
  assert (Hstart : Js.trim_start Js.StrWhiteSpaceChar (String.length s) s = s).
  { apply trim_start_stuck. destruct s as [|c s']; [congruence|].
    cbn [allDigits] in Hd. apply andb_true_iff in Hd.
    exact (proj1 (strip_any_digit c s' (proj1 Hd))). }
  rewrite Hstart.
  destruct (rev_string_digits s Hne Hd) as (c & s' & Hrev & Hc).
  rewrite Hrev.
  rewrite (trim_start_stuck _ _ _ (proj2 (strip_any_digit c s' Hc))).
  rewrite <- Hrev. apply rev_string_involutive.
Qed.

Lemma literal_digits (s : string) (v n : Z) :
  s <> "" -> allDigits s = true ->
  Js.digits 10 0 0 s = (v, n, "") -> 0 < n ->
  Js.StringToNumber s = Js.binary64 false (v * 10 ^ 0) 1.
Proof.
  intros Hne Hd Hdigits Hn. unfold Js.StringToNumber. rewrite trim_digits by assumption.
  cbv zeta.
  destruct s as [|c s']; [congruence|].
  cbn [allDigits] in Hd. apply andb_true_iff in Hd. destruct Hd as [Hc Hs'].
  assert (Hnon : Js.NonDecimalIntegerLiteral (String c s') = None).
  { destruct s' as [|c' s'']; [digit_cases Hc; reflexivity|].
    cbn [allDigits] in Hs'. apply andb_true_iff in Hs'. destruct Hs' as [Hc' _].
    digit_cases Hc; try reflexivity. digit_cases Hc'; reflexivity. }
  assert (Hsign : Js.sign_prefix (String c s') = (false, String c s')).
  { digit_cases Hc; reflexivity. }
  assert (Hinf : String.eqb (String c s') "Infinity" = false).
  { digit_cases Hc; reflexivity. }
  change (String.eqb (String c s') "") with false. cbv iota.
  rewrite Hnon, Hsign, Hinf.
  unfold Js.StrUnsignedDecimalLiteral. rewrite Hdigits.
  cbn [Js.ExponentPart]. replace (0 <? n + 0) with true by (symmetry; apply Z.ltb_lt; lia).
  reflexivity.
Qed.

Lemma round_half_even_1 (x : Z) : Js.round_half_even x 1 = x.
Proof.
  unfold Js.round_half_even. rewrite Z.mod_1_r, Z.div_1_r. reflexivity.
Qed.

Lemma Qred_integer (n : Z) : Qred (n # 1) = n # 1.
Proof.
  unfold Qred.
  pose proof (Z.ggcd_gcd n 1) as Hg.
  pose proof (Z.ggcd_correct_divisors n 1) as Hd.
  destruct (Z.ggcd n 1) as [g [a b]]. simpl in *.
  rewrite Z.gcd_1_r in Hg. subst g. destruct Hd as [Ha Hb].
  rewrite Z.mul_1_l in Ha, Hb. now subst.
Qed.

Lemma binary64_integer (n : Z) :
  0 < n < 2 ^ 53 -> Js.binary64 false n 1 = Js.ofZ n.
Proof.
  intros [Hpos Hlt]. unfold Js.binary64, Js.binary64_magnitude, Js.ofZ.
  destruct (Z.eqb_spec n 0) as [|_]; [lia|].
  assert (Hlog : 0 <= Z.log2 n < 53).
  { split; [apply Z.log2_nonneg|]. apply Z.log2_lt_pow2; lia. }
  assert (Hfloor : Js.floor_log2_ratio n 1 = Z.log2 n).
  { unfold Js.floor_log2_ratio. change (Z.log2 1) with 0. rewrite Z.sub_0_r.
    destruct (Z.leb_spec 0 (Z.log2 n)) as [_|]; [|lia].
    rewrite Z.mul_1_l. pose proof (Z.log2_spec n Hpos) as [Hle _].
    destruct (Z.leb_spec (2 ^ Z.log2 n) n); [reflexivity|lia]. }
  rewrite Hfloor. cbv zeta.
  rewrite Z.max_l by lia.
  set (e := Z.log2 n - 52).
  assert (He : -52 <= e <= 0) by (unfold e; lia).
  destruct (Z.leb_spec 0 e) as [H0|Hneg].
  - assert (e = 0) as -> by lia.
    change (2 ^ 0) with 1. rewrite Z.mul_1_r, round_half_even_1.
    change (971 <? 0) with false. change (0 =? 971) with false.
    cbn [orb andb]. now rewrite Z.mul_1_r.
  - rewrite round_half_even_1.
    destruct (Z.ltb_spec 971 e) as [|_]; [lia|].
    destruct (Z.eqb_spec e 971) as [|_]; [lia|].
    cbn [orb andb]. f_equal.
    rewrite <- Qred_integer. apply Qred_complete.
    unfold Qeq. cbn [Qnum Qden].
    rewrite Z2Pos.id by (apply Z.pow_pos_nonneg; lia). lia.
Qed.

Lemma string_of_Z_digits (p : positive) :
  Js.string_of_Z (Z.pos p) = NilEmpty.string_of_uint (Pos.to_uint p)
  /\ Js.string_of_Z (Z.pos p) <> "".
Proof.
  unfold Js.string_of_Z. cbn [Z.to_int NilZero.string_of_int].
  pose proof (Unsigned.to_uint_nonnil p) as Hnil.
  destruct (Pos.to_uint p) eqn:Hd; [congruence|..]; split; (reflexivity || discriminate).
Qed.

Lemma nb_digits_pos (d : Decimal.uint) :
  d <> Decimal.Nil -> (0 < Decimal.nb_digits d)%nat.
Proof. destruct d; [congruence|..]; simpl; lia. Qed.

Lemma Number_decimal (n : Z) :
  0 < n < 2 ^ 53 -> Js.Number (Some (Js.string_of_Z n)) = Js.ofZ n.
Proof.
  intros Hn. destruct n as [|p|p]; [lia| |lia].
  destruct (string_of_Z_digits p) as [Hs Hne].
  cbn [Js.Number].
  rewrite (literal_digits _ (Z.pos p) (Z.of_nat (Decimal.nb_digits (Pos.to_uint p)))).
  - change (10 ^ 0) with 1. rewrite Z.mul_1_r. now apply binary64_integer.
  - assumption.
  - rewrite Hs. apply allDigits_string_of_uint.
  - rewrite Hs, digits_string_of_uint, uint_acc_to_uint. reflexivity.
  - pose proof (nb_digits_pos _ (Unsigned.to_uint_nonnil p)). lia.
Qed.

(** * Properties of the adapter *)

Lemma emitted_chat_yields {A : Type} (request : ChatRequest)
    (chunks : list ApiStreamChunk) (o : Completion A) :
  emitted (Chat request :: map Yield chunks, o) = chunks.
Proof. unfold emitted. simpl. apply yields_map_Yield. Qed.

Section Claims.
Context {imports : Imports}.
Variables (this : OllamaHandler) (systemPrompt : string) (conversation : list MessageParam).

(** C1, as amended: when the stream delivers a part with content "a" and no
    counter, a part with content "b" and no counter, and a final part that
    reports counters (at least one of them), [createMessage] yields
    Text "a", Text "b", then a Text chunk for the final part if its content
    is a string (the empty string too), then one Usage chunk in which a
    missing counter is zero; then it returns.  This holds in the first
    listing when a model id is configured, in the second one when streaming
    is not switched off, and in both when the transport answers before the
    timer fires, which it does after the delay Node gives it (1 ms for a
    timeout below 1 or above 2^31 - 1). *)
Theorem C1_stream_text_then_usage (t : Z) (finalContent : option string)
    (eval_count prompt_eval_count : option Z) :
  let s := {| Response.parts := [textPart "a"; textPart "b";
                                 part finalContent eval_count prompt_eval_count];
              Response.failure := None |} in
  let expected :=
    ([Text "a"; Text "b"]
     ++ match finalContent with Some text => [Text text] | None => [] end
     ++ [Usage (Js.nullish prompt_eval_count 0) (Js.nullish eval_count 0)])%list in
  defined eval_count || defined prompt_eval_count = true ->
  (Js.truthy_string (ollamaModelId (options this)) <> None ->
   t < Js.timerDelay (Strict_timeoutMs this) ->
   (forall request,
       In request (requests (Strict.createMessage this systemPrompt conversation)) ->
       chat_streaming (client this) request = Promise.Fulfilled t s) ->
   emitted (Strict.createMessage this systemPrompt conversation) = expected
   /\ outcome (Strict.createMessage this systemPrompt conversation) = Return tt)
  /\
  (Js.nullish (ollamaUseStreaming (options this)) true = true ->
   t < Js.timerDelay (Second_timeoutMs this) ->
   (forall request,
       In request (requests (Second.createMessage this systemPrompt conversation)) ->
       chat_streaming (client this) request = Promise.Fulfilled t s) ->
   emitted (Second.createMessage this systemPrompt conversation) = expected
   /\ outcome (Second.createMessage this systemPrompt conversation) = Return tt).
Proof.
  intros s expected Hcounters.
  assert (Hparts : consume (Response.parts s) (Response.failure s) = (expected, Return tt)).
  { subst s expected. simpl. unfold partChunks, usageChunks, reportsCounters. simpl.
    rewrite Hcounters. destruct finalContent; reflexivity. }
  split.
  - intros Hid Ht Hanswer.
    rewrite Strict_requests in Hanswer. rewrite Strict_createMessage_run.
    destruct (Js.truthy_string (ollamaModelId (options this))) as [modelId|];
      [|congruence].
    cbv zeta. rewrite (Hanswer _ (or_introl eq_refl)).
    rewrite race_fulfilled_in_time by assumption.
    rewrite Hparts, emitted_chat_yields. split; reflexivity.
  - intros Hstreaming Ht Hanswer.
    rewrite Second_requests in Hanswer. rewrite Second_createMessage_run.
    rewrite Hstreaming in *. cbv zeta. rewrite (Hanswer _ (or_introl eq_refl)).
    rewrite race_fulfilled_in_time by assumption.
    rewrite Hparts, emitted_chat_yields. split; reflexivity.
Qed.

(** C3: when no model id is configured (it is undefined, or empty), the
    first listing throws "Ollama model id is required" and its run holds no
    request and no chunk; the second listing hands one request to the
    transport, whose model is the empty string. *)
Theorem C3_unset_model_id :
  Js.truthy_string (ollamaModelId (options this)) = None ->
  Strict.createMessage this systemPrompt conversation
  = ([], Throw (JsError.Error "Ollama model id is required"))
  /\ exists request,
       requests (Second.createMessage this systemPrompt conversation) = [request]
       /\ model request = "".
Proof.
  intros Hid. split.
  - rewrite Strict_createMessage_run, Hid. reflexivity.
  - eexists. split; [apply Second_requests|]. simpl. unfold Js.or_string.
    now rewrite Hid.
Qed.

(** C8: every request handed to the transport carries the system message
    made of the system prompt, followed by the converter's output for the
    conversation.  The second listing always makes one such request, the
    first one makes it when a model id is configured and none otherwise. *)
Theorem C8_messages_sent :
  let expected :=
    {| role := "system"; content := systemPrompt |} :: convertToOllamaMessages conversation in
  map messages (requests (Second.createMessage this systemPrompt conversation)) = [expected]
  /\ map messages (requests (Strict.createMessage this systemPrompt conversation))
     = if defined (Js.truthy_string (ollamaModelId (options this)))
       then [expected] else [].
Proof.
  cbv zeta. rewrite Second_requests, Strict_requests. split; [reflexivity|].
  destruct (Js.truthy_string (ollamaModelId (options this))); reflexivity.
Qed.

(** C4, as amended: in the first listing, when the configured base URL is
    not the empty string, a request that fails before the timer fires with
    an error whose cause (the error itself when it has no cause) carries a
    non-empty code is re-raised as
    "Could not reach Ollama at <base URL> — <code>: <text>", where the base
    URL, which is not empty, is the [host] option the constructor built the
    client with (the default URL when none is configured); the message
    contains it and the code, and nothing is yielded.  The second listing
    re-raises such an error as it is, whenever its message does not contain
    "timed out". *)
Theorem C4_request_failure (t : Z) (err : JsError) (code : string) :
  let underlying :=
    match JsError.cause err with
    | Some c => (JsError.cause_code c, JsError.cause_message c)
    | None => (JsError.code err, JsError.message err)
    end in
  let baseUrl := Js.nullish (ollamaBaseUrl (options this)) defaultBaseUrl in
  Js.truthy_string (fst underlying) = Some code ->
  (Js.truthy_string (ollamaModelId (options this)) <> None ->
   ollamaBaseUrl (options this) <> Some "" ->
   t < Js.timerDelay (Strict_timeoutMs this) ->
   (forall request,
       In request (requests (Strict.createMessage this systemPrompt conversation)) ->
       chat_streaming (client this) request = Promise.Rejected t err) ->
   outcome (Strict.createMessage this systemPrompt conversation)
   = Throw (JsError.Error
              ("Could not reach Ollama at " ++ baseUrl ++ " — " ++ code ++ ": "
               ++ Js.nullish (snd underlying) JsError.object_text))
   /\ emitted (Strict.createMessage this systemPrompt conversation) = []
   /\ baseUrl <> ""
   /\ (forall net,
         client (Strict.constructor net (options this)) = new_Ollama net baseUrl)
   /\ exists text,
        outcome (Strict.createMessage this systemPrompt conversation)
        = Throw (JsError.Error text)
        /\ Js.includes baseUrl text = true
        /\ Js.includes code text = true)
  /\
  (t < Js.timerDelay (Second_timeoutMs this) ->
   (forall request,
       In request (requests (Second.createMessage this systemPrompt conversation)) ->
       chat_streaming (client this) request = Promise.Rejected t err
       /\ chat_complete (client this) request = Promise.Rejected t err) ->
   match Js.truthy_string (JsError.message err) with
   | Some text => Js.includes "timed out" text = false
   | None => True
   end ->
   outcome (Second.createMessage this systemPrompt conversation) = Throw err
   /\ emitted (Second.createMessage this systemPrompt conversation) = []).
Proof.
  intros underlying baseUrl Hcode. split.
  - intros Hid Hurl Ht Hanswer.
    assert (HbaseUrl : baseUrl <> "").
    { subst baseUrl. unfold defaultBaseUrl.
      destruct (ollamaBaseUrl (options this)) as [url|]; cbn [Js.nullish];
        [congruence|discriminate]. }
    rewrite Strict_requests in Hanswer. rewrite Strict_createMessage_run.
    destruct (Js.truthy_string (ollamaModelId (options this))) as [modelId|];
      [|congruence].
    cbv zeta. rewrite (Hanswer _ (or_introl eq_refl)).
    rewrite race_rejected_in_time by assumption.
    unfold outcome, emitted. simpl.
    assert (Hthrown : Strict.diagnose this err
                      = JsError.Error
                          ("Could not reach Ollama at " ++ baseUrl ++ " — " ++ code ++ ": "
                           ++ Js.nullish (snd underlying) JsError.object_text)).
    { unfold Strict.diagnose. fold underlying.
      destruct underlying as [cause_code cause_message]. simpl in Hcode.
      now rewrite Hcode. }
    rewrite Hthrown. repeat split; [exact HbaseUrl|].
    eexists. split; [reflexivity|]. split.
    + apply includes_app.
    + set (rest := ": " ++ _).
      replace ("Could not reach Ollama at " ++ baseUrl ++ " — " ++ code ++ rest)
        with (("Could not reach Ollama at " ++ baseUrl ++ " — ") ++ code ++ rest)
        by now rewrite !append_assoc.
      apply includes_app.
  - intros Ht Hanswer Hmessage.
    rewrite Second_requests in Hanswer. rewrite Second_createMessage_run.
    destruct (Hanswer _ (or_introl eq_refl)) as [Hstream Hcomplete].
    assert (Hsame : Second_rethrown this err = err).
    { unfold Second_rethrown.
      destruct (Js.truthy_string (JsError.message err)); [now rewrite Hmessage|reflexivity]. }
    destruct (Js.nullish (ollamaUseStreaming (options this)) true); cbv zeta.
    + rewrite Hstream, race_rejected_in_time by assumption.
      unfold outcome, emitted. simpl. now rewrite Hsame.
    + rewrite Hcomplete, race_rejected_in_time by assumption.
      unfold outcome, emitted. simpl. now rewrite Hsame.
Qed.

(** C5, as amended: both listings return the same [info].  Without an
    override (unset or empty) it is the default record itself.  With an
    override, the other fields are the default ones and [contextWindow] is
    the number the override parses to when that number is neither NaN nor
    zero, so whenever it is positive, and 32768 otherwise; the decimal
    numeral of a positive integer below 2^53 gives that integer, "131072"
    gives 131072. *)
Theorem C5_context_window :
  let ctx := ollamaApiOptionsCtxNum (options this) in
  let window := contextWindow (info (Strict.getModel this)) in
  info (Second.getModel this) = info (Strict.getModel this)
  /\ (Js.truthy_string ctx = None ->
      info (Strict.getModel this) = openAiModelInfoSaneDefaults)
  /\ (forall s, Js.truthy_string ctx = Some s ->
        otherFields (info (Strict.getModel this)) = otherFields openAiModelInfoSaneDefaults
        /\ (forall q, Js.Number (Some s) = Js.Finite q -> (0 < q)%Q -> window = Js.Finite q)
        /\ (Js.truthy_number (Js.Number (Some s)) = true -> window = Js.Number (Some s))
        /\ (Js.truthy_number (Js.Number (Some s)) = false -> window = Js.ofZ 32768))
  /\ (forall n, 0 < n < 2 ^ 53 -> ctx = Some (Js.string_of_Z n) -> window = Js.ofZ n)
  /\ (ctx = Some "131072" -> window = Js.ofZ 131072).
Proof.
  cbv zeta. unfold Strict.getModel, Second.getModel. cbn [info contextWindow otherFields].
  split; [reflexivity|]. split; [now intros ->|]. split; [|split].
  - intros s ->. cbn [contextWindow otherFields]. unfold Js.or_number. repeat split.
    + intros q Hq Hpos. rewrite Hq. cbn [Js.truthy_number].
      destruct (Z.eqb_spec (Qnum q) 0) as [Hz|]; [|reflexivity].
      unfold Qlt in Hpos. cbn [Qnum Qden] in Hpos. lia.
    + now intros ->.
    + now intros ->.
  - intros n Hn ->.
    assert (Hs : Js.truthy_string (Some (Js.string_of_Z n)) = Some (Js.string_of_Z n)).
    { destruct n as [|p|p]; [lia| |lia]. cbn [Js.truthy_string].
      destruct (string_of_Z_digits p) as [_ Hne].
      destruct (String.eqb_spec (Js.string_of_Z (Z.pos p)) ""); [congruence|reflexivity]. }
    rewrite Hs. cbn [contextWindow]. rewrite Number_decimal by assumption.
    unfold Js.or_number, Js.ofZ. cbn [Js.truthy_number Qnum].
    destruct (Z.eqb_spec n 0); [lia|reflexivity].
  - now intros ->.
Qed.

(** C6: with [ollamaUseStreaming] set to false, a run of the second listing
    that returns has made one request, with [stream: false], which the
    transport fulfilled before the timer fired with a response that carries a
    message; it yielded one Text chunk if the content of that message is a
    string, then one Usage chunk if the response reports a counter, and
    nothing else. *)
Theorem C6_non_streaming_response :
  ollamaUseStreaming (options this) = Some false ->
  outcome (Second.createMessage this systemPrompt conversation) = Return tt ->
  exists request t response m,
    requests (Second.createMessage this systemPrompt conversation) = [request]
    /\ stream request = false
    /\ chat_complete (client this) request = Promise.Fulfilled t response
    /\ t < Js.timerDelay (Second_timeoutMs this)
    /\ Response.message response = Some m
    /\ emitted (Second.createMessage this systemPrompt conversation)
       = (match Response.content m with
          | Some text => [Text text]
          | None => []
          end
          ++ if defined (Response.eval_count response)
                || defined (Response.prompt_eval_count response)
             then [Usage (Js.or_Z (Response.prompt_eval_count response) 0)
                         (Js.or_Z (Response.eval_count response) 0)]
             else [])%list.
Proof.
  intros Hflag. rewrite Second_requests, Second_createMessage_run, Hflag. simpl Js.nullish.
  cbv iota zeta.
  destruct (chat_complete (client this) (Second_request this systemPrompt conversation false))
    as [|t response|t err] eqn:Hanswer.
  - discriminate.
  - unfold timer, Promise.rejectAfter. simpl Promise.race.
    destruct (Z.ltb_spec t (Js.timerDelay (Second_timeoutMs this))) as [Ht|Ht];
      [|discriminate].
    destruct (Response.message response) as [m|] eqn:Hm; [|discriminate].
    intros _. exists (Second_request this systemPrompt conversation false), t, response, m.
    rewrite emitted_chat_yields. repeat split; try assumption.
    unfold partChunks, textChunks, usageChunks, reportsCounters.
    now rewrite Hm, !or_Z_zero.
  - unfold timer, Promise.rejectAfter. simpl Promise.race.
    destruct (t <? Js.timerDelay (Second_timeoutMs this)); discriminate.
Qed.

(** In the second listing, when the transport has delivered a stream
    before the timer fires and reading it raises an error whose message (or
    "Unknown error" in its place) does not contain "timed out",
    [createMessage] throws "Ollama stream processing error: <message>"; the
    chunks yielded before the failure are all there, and they are a prefix
    of what any handler with the same options yields from a stream that
    goes on past these parts. *)
Theorem Second_stream_failure_wrapped (t : Z) (s : Stream) (streamError : JsError) :
  let text := Js.or_string (JsError.message streamError) "Unknown error" in
  Js.nullish (ollamaUseStreaming (options this)) true = true ->
  t < Js.timerDelay (Second_timeoutMs this) ->
  (forall request,
      In request (requests (Second.createMessage this systemPrompt conversation)) ->
      chat_streaming (client this) request = Promise.Fulfilled t s) ->
  outcome (for_await s Second.onResponse) = Throw streamError ->
  Js.includes "timed out" text = false ->
  outcome (Second.createMessage this systemPrompt conversation)
  = Throw (JsError.Error ("Ollama stream processing error: " ++ text))
  /\ emitted (Second.createMessage this systemPrompt conversation)
     = emitted (for_await s Second.onResponse)
  /\ forall (that : OllamaHandler) (t' : Z) (more : list ChatResponse)
            (failure' : option JsError),
       options that = options this ->
       t' < Js.timerDelay (Second_timeoutMs that) ->
       (forall request,
           In request (requests (Second.createMessage that systemPrompt conversation)) ->
           chat_streaming (client that) request
           = Promise.Fulfilled t' {| Response.parts := (Response.parts s ++ more)%list;
                                     Response.failure := failure' |}) ->
       exists rest,
         emitted (Second.createMessage that systemPrompt conversation)
         = (emitted (Second.createMessage this systemPrompt conversation) ++ rest)%list.
Proof.
  intros text Hstreaming Ht Hanswer Hfails Htext.
  rewrite Second_for_await in Hfails |- *. unfold outcome in Hfails. simpl in Hfails.
  assert (Hrun : Second.createMessage this systemPrompt conversation
                 = (Chat (Second_request this systemPrompt conversation true)
                      :: map Yield (fst (consume (Response.parts s) (Response.failure s))),
                    Throw (JsError.Error ("Ollama stream processing error: " ++ text)))).
  { rewrite Second_requests in Hanswer. rewrite Second_createMessage_run.
    rewrite Hstreaming in *. cbv zeta. rewrite (Hanswer _ (or_introl eq_refl)).
    rewrite race_fulfilled_in_time by assumption. rewrite Hfails.
    do 2 f_equal. unfold Second_rethrown, streamProcessingError. fold text.
    change (Js.truthy_string (JsError.message (JsError.Error ?m)))
      with (Js.truthy_string (Some m)).
    cbn [Js.truthy_string].
    destruct (String.eqb _ _); [reflexivity|].
    change (Js.includes "timed out" ("Ollama stream processing error: " ++ text))
      with (Js.includes "timed out" text).
    now rewrite Htext. }
  rewrite Hrun. unfold outcome. rewrite emitted_chat_yields. unfold emitted at 1.
  simpl fst. rewrite yields_map_Yield. repeat split.
  intros that t' more failure' Hoptions Ht' Hanswer'.
  rewrite Second_requests in Hanswer'. rewrite Second_createMessage_run.
  rewrite Hoptions, Hstreaming in *. cbv zeta.
  rewrite (Hanswer' _ (or_introl eq_refl)).
  rewrite race_fulfilled_in_time by assumption.
  rewrite emitted_chat_yields. simpl Response.parts. simpl Response.failure.
  apply consume_app.
Qed.

(** C9: the descriptor [getModel] returns is a function of the configured
    model id and context-size override alone: handlers that agree on these
    two options, so one handler asked twice, get equal descriptors, in
    either listing. *)
Theorem C9_getModel_idempotent (that : OllamaHandler) :
  ollamaModelId (options this) = ollamaModelId (options that) ->
  ollamaApiOptionsCtxNum (options this) = ollamaApiOptionsCtxNum (options that) ->
  Strict.getModel this = Strict.getModel that
  /\ Second.getModel this = Second.getModel that.
Proof.
  intros Hid Hctx. unfold Strict.getModel, Second.getModel.
  now rewrite Hid, Hctx.
Qed.

(** C10: a part whose content is a string, the empty string included, and
    which reports a counter gives rise to two chunks, its Text chunk and
    right after it its Usage chunk: in a stream they stand between what the
    parts before it and the parts after it give rise to (in both listings),
    and for a complete response of the second listing they are all that is
    yielded. *)
Theorem C10_text_and_usage_from_one_part (t : Z) (text : string)
    (eval_count prompt_eval_count : option Z)
    (before after : list ChatResponse) (failure : option JsError) :
  let c := part (Some text) eval_count prompt_eval_count in
  let two := [Text text;
              Usage (Js.nullish prompt_eval_count 0) (Js.nullish eval_count 0)] in
  let s := {| Response.parts := (before ++ c :: after)%list;
              Response.failure := failure |} in
  let upTo := {| Response.parts := before; Response.failure := None |} in
  let from := {| Response.parts := after; Response.failure := failure |} in
  defined eval_count || defined prompt_eval_count = true ->
  (Js.truthy_string (ollamaModelId (options this)) <> None ->
   t < Js.timerDelay (Strict_timeoutMs this) ->
   (forall request,
       In request (requests (Strict.createMessage this systemPrompt conversation)) ->
       chat_streaming (client this) request = Promise.Fulfilled t s) ->
   outcome (for_await upTo Strict.onChunk) = Return tt ->
   emitted (Strict.createMessage this systemPrompt conversation)
   = (emitted (for_await upTo Strict.onChunk) ++ two
      ++ emitted (for_await from Strict.onChunk))%list)
  /\
  (Js.nullish (ollamaUseStreaming (options this)) true = true ->
   t < Js.timerDelay (Second_timeoutMs this) ->
   (forall request,
       In request (requests (Second.createMessage this systemPrompt conversation)) ->
       chat_streaming (client this) request = Promise.Fulfilled t s) ->
   outcome (for_await upTo Second.onResponse) = Return tt ->
   emitted (Second.createMessage this systemPrompt conversation)
   = (emitted (for_await upTo Second.onResponse) ++ two
      ++ emitted (for_await from Second.onResponse))%list)
  /\
  (Js.nullish (ollamaUseStreaming (options this)) true = false ->
   t < Js.timerDelay (Second_timeoutMs this) ->
   (forall request,
       In request (requests (Second.createMessage this systemPrompt conversation)) ->
       chat_complete (client this) request = Promise.Fulfilled t c) ->
   emitted (Second.createMessage this systemPrompt conversation) = two
   /\ outcome (Second.createMessage this systemPrompt conversation) = Return tt).
Proof.
  intros c two s upTo from Hcounters.
  assert (Htwo : partChunks c = two).
  { subst c two. unfold partChunks, usageChunks, reportsCounters, part. simpl.
    now rewrite Hcounters. }
  assert (Hc : Response.message c <> None) by discriminate.
  assert (Hsplit : snd (consume before None) = Return tt ->
                   fst (consume (Response.parts s) (Response.failure s))
                   = (fst (consume before None) ++ two ++ fst (consume after failure))%list).
  { intros Hbefore. rewrite <- Htwo. now apply consume_split. }
  split; [|split].
  - intros Hid Ht Hanswer Hbefore.
    rewrite Strict_requests in Hanswer. rewrite Strict_createMessage_run.
    destruct (Js.truthy_string (ollamaModelId (options this))) as [modelId|];
      [|congruence].
    cbv zeta. rewrite (Hanswer _ (or_introl eq_refl)).
    rewrite race_fulfilled_in_time by assumption.
    rewrite !Strict_for_await in *. unfold outcome in Hbefore. simpl in Hbefore.
    rewrite emitted_chat_yields. unfold emitted. simpl fst.
    rewrite !yields_map_Yield. now apply Hsplit.
  - intros Hstreaming Ht Hanswer Hbefore.
    rewrite Second_requests in Hanswer. rewrite Second_createMessage_run.
    rewrite Hstreaming in *. cbv zeta. rewrite (Hanswer _ (or_introl eq_refl)).
    rewrite race_fulfilled_in_time by assumption.
    rewrite !Second_for_await in *. unfold outcome in Hbefore. simpl in Hbefore.
    rewrite emitted_chat_yields. unfold emitted. simpl fst.
    rewrite !yields_map_Yield. now apply Hsplit.
  - intros Hstreaming Ht Hanswer.
    rewrite Second_requests in Hanswer. rewrite Second_createMessage_run.
    rewrite Hstreaming in *. cbv zeta. rewrite (Hanswer _ (or_introl eq_refl)).
    rewrite race_fulfilled_in_time by assumption.
    change (Response.message c) with (Some {| Response.content := Some text |}).
    cbv iota. rewrite emitted_chat_yields, Htwo. split; reflexivity.
Qed.

(** When the request has not settled before the timer fires, the first
    listing (with a model id) has made its one request, yields nothing and
    throws the timer's error under the wording of an API error: "Ollama API
    error (unknown): Ollama request timed out after <timeoutMs / 1000>
    seconds", where [timeoutMs] is the configured timeout, 30000 without
    one, and is below 10^15 in absolute value.  The timer fires after the
    delay Node gives it, 1 ms for a timeout below 1 or above 2^31 - 1. *)
Theorem Strict_timeout_reported (modelId : string) :
  Js.truthy_string (ollamaModelId (options this)) = Some modelId ->
  Js.exactlyPrinted (Strict_timeoutMs this) ->
  unsettledAt (Js.timerDelay (Strict_timeoutMs this))
    (chat_streaming (client this) (Strict_request systemPrompt conversation modelId)) ->
  Strict.createMessage this systemPrompt conversation
  = ([Chat (Strict_request systemPrompt conversation modelId)],
     Throw (JsError.Error
              ("Ollama API error (unknown): Ollama request timed out after "
               ++ Js.div1000_text (Js.nullish (requestTimeoutMs (options this)) 30000)
               ++ " seconds"))).
Proof.
  intros Hid _ Hlate. rewrite Strict_createMessage_run, Hid. cbv zeta.
  rewrite race_unsettled by assumption. reflexivity.
Qed.

(** When a timeout between 1 and 2^31 - 1 ms is configured and the request
    has not settled before the timer fires, the second listing has made its
    one request, yields nothing and throws "Ollama request timed out after
    <n> seconds", where [n] is a thousandth of the configured timeout, which
    is the delay of the timer. *)
Theorem Second_timeout_reported (configured : Z) :
  requestTimeoutMs (options this) = Some configured ->
  1 <= configured <= 2147483647 ->
  (forall request,
      In request (requests (Second.createMessage this systemPrompt conversation)) ->
      unsettledAt configured (chat_streaming (client this) request)
      /\ unsettledAt configured (chat_complete (client this) request)) ->
  Js.timerDelay (Second_timeoutMs this) = configured
  /\ outcome (Second.createMessage this systemPrompt conversation)
     = Throw (JsError.Error
                ("Ollama request timed out after " ++ Js.div1000_text configured
                 ++ " seconds"))
  /\ emitted (Second.createMessage this systemPrompt conversation) = [].
Proof.
  intros Hconfigured Hrange Hlate.
  assert (Hset : Second_timeoutMs this = configured).
  { unfold Second_timeoutMs. rewrite Hconfigured. simpl.
    destruct (Z.eqb_spec configured 0); [lia|reflexivity]. }
  assert (Hdelay : Js.timerDelay (Second_timeoutMs this) = configured).
  { rewrite Hset. now apply timerDelay_in_range. }
  assert (Hthrown : Second_rethrown this (JsError.Error (timedOutText configured))
                    = JsError.Error (timedOutText configured)).
  { unfold Second_rethrown. rewrite Hconfigured.
    change (Js.truthy_string (JsError.message (JsError.Error ?m)))
      with (Js.truthy_string (Some m)).
    cbn [Js.truthy_string].
    destruct (String.eqb _ _); [reflexivity|].
    change (Js.includes "timed out" (timedOutText configured)) with true.
    cbv iota. simpl Js.or_Z. destruct (Z.eqb_spec configured 0); [lia|reflexivity]. }
  split; [assumption|].
  rewrite Second_requests in Hlate. rewrite Second_createMessage_run.
  destruct (Hlate _ (or_introl eq_refl)) as [Hstream Hcomplete].
  rewrite <- Hdelay in Hstream, Hcomplete.
  destruct (Js.nullish (ollamaUseStreaming (options this)) true); cbv zeta;
    rewrite race_unsettled by assumption; rewrite Hset, Hthrown; split; reflexivity.
Qed.

(** Waiting for the request never leaves [createMessage] pending: every run
    of either listing returns or throws. *)
Theorem createMessage_settles :
  outcome (Strict.createMessage this systemPrompt conversation) <> Hang
  /\ outcome (Second.createMessage this systemPrompt conversation) <> Hang.
Proof.
  rewrite Strict_createMessage_run, Second_createMessage_run. unfold outcome. split.
  - destruct (Js.truthy_string (ollamaModelId (options this))) as [modelId|];
      [|discriminate].
    cbv zeta.
    destruct (Promise.race _ _) as [|t s|t e] eqn:Hrace; simpl; try discriminate.
    + now apply race_settles in Hrace.
    + apply consume_never_hangs.
  - destruct (Js.nullish (ollamaUseStreaming (options this)) true); cbv zeta.
    + destruct (Promise.race _ _) as [|t s|t e] eqn:Hrace; simpl; try discriminate.
      * now apply race_settles in Hrace.
      * pose proof (consume_never_hangs (Response.parts s) (Response.failure s)) as Hloop.
        destruct (snd (consume (Response.parts s) (Response.failure s)));
          [discriminate|discriminate|congruence].
    + destruct (Promise.race _ _) as [|t r|t e] eqn:Hrace; simpl; try discriminate.
      * now apply race_settles in Hrace.
      * destruct (Response.message r); discriminate.
Qed.

(** In the first listing, a request that fails before the timer fires
    (after the delay Node gives it) with an error that carries no code and
    has no cause is re-raised as "Ollama API error (<status>): <message>",
    the status being [status], else [statusCode], else "unknown"; a status
    is a safe integer. *)
Theorem Strict_api_error (t : Z) (err : JsError) (modelId : string) :
  Js.truthy_string (ollamaModelId (options this)) = Some modelId ->
  (forall n, JsError.status err = Some n \/ JsError.statusCode err = Some n ->
             Js.safeInteger n) ->
  t < Js.timerDelay (Strict_timeoutMs this) ->
  chat_streaming (client this) (Strict_request systemPrompt conversation modelId)
  = Promise.Rejected t err ->
  JsError.cause err = None ->
  Js.truthy_string (JsError.code err) = None ->
  Strict.createMessage this systemPrompt conversation
  = ([Chat (Strict_request systemPrompt conversation modelId)],
     Throw (JsError.Error
              ("Ollama API error ("
               ++ match JsError.status err, JsError.statusCode err with
                  | Some n, _ => Js.string_of_Z n
                  | None, Some n => Js.string_of_Z n
                  | None, None => "unknown"
                  end
               ++ "): " ++ Js.nullish (JsError.message err) JsError.object_text))).
Proof.
  intros Hid _ Ht Hanswer Hcause Hcode.
  rewrite Strict_createMessage_run, Hid. cbv zeta.
  rewrite Hanswer, race_rejected_in_time by assumption.
  unfold Strict.diagnose. now rewrite Hcause, Hcode.
Qed.

End Claims.

(** ** The statements at sample inputs *)

Lemma C1_witness :
  emitted (Strict.createMessage (imports := Samples.imports)
             (Samples.streaming (Samples.abThen (part None (Some 3) (Some 5))))
             "You are helpful." Samples.conversation)
  = [Text "a"; Text "b"; Usage 5 3]
  /\ emitted (Second.createMessage (imports := Samples.imports)
                (Samples.streaming (Samples.abThen (part None (Some 3) (Some 5))))
                "You are helpful." Samples.conversation)
     = [Text "a"; Text "b"; Usage 5 3].
Proof.
  destruct (C1_stream_text_then_usage (imports := Samples.imports)
              (Samples.streaming (Samples.abThen (part None (Some 3) (Some 5))))
              "You are helpful." Samples.conversation 10 None (Some 3) (Some 5) eq_refl)
    as [Hstrict Hsecond].
  split.
  - apply Hstrict; [discriminate|vm_compute; reflexivity|intros; reflexivity].
  - apply Hsecond; [reflexivity|vm_compute; reflexivity|intros; reflexivity].
Defined.

(** The final part of a stream of the server has a string for content, the
    empty one: a third Text chunk comes before the Usage chunk. *)
Lemma C1_counterexample :
  emitted (Strict.createMessage (imports := Samples.imports)
             (Samples.streaming (Samples.abThen (part (Some "") (Some 3) (Some 5))))
             "You are helpful." Samples.conversation)
  = [Text "a"; Text "b"; Text ""; Usage 5 3]
  /\ emitted (Second.createMessage (imports := Samples.imports)
                (Samples.streaming (Samples.abThen (part (Some "") (Some 3) (Some 5))))
                "You are helpful." Samples.conversation)
     = [Text "a"; Text "b"; Text ""; Usage 5 3]
  /\ [Text "a"; Text "b"; Text ""; Usage 5 3] <> [Text "a"; Text "b"; Usage 5 3].
Proof. split; [reflexivity|split; [reflexivity|discriminate]]. Qed.

(** C2, at the input where the code departs from it: the second listing with
    no timeout configured and a server that never answers.  The timer is set
    to 60000 ms, and an answer after 45000 ms is still taken; yet the error
    thrown when the timer fires says 30 seconds.  Nothing is yielded. *)
Theorem C2_second_listing_default_budget :
  Second_timeoutMs (Second.constructor Samples.silent Samples.llama) = 60000
  /\ Second.createMessage (imports := Samples.imports)
       (Second.constructor Samples.late Samples.llama)
       "You are helpful." Samples.conversation
     = ([Chat (Second_request (imports := Samples.imports)
                 (Second.constructor Samples.late Samples.llama)
                 "You are helpful." Samples.conversation true);
         Yield (Text "late")], Return tt)
  /\ Second.createMessage (imports := Samples.imports)
       (Second.constructor Samples.silent Samples.llama)
       "You are helpful." Samples.conversation
     = ([Chat (Second_request (imports := Samples.imports)
                 (Second.constructor Samples.silent Samples.llama)
                 "You are helpful." Samples.conversation true)],
        Throw (JsError.Error "Ollama request timed out after 30 seconds")).
Proof. repeat split. Qed.

Lemma C3_witness :
  Strict.createMessage (imports := Samples.imports)
    (Strict.constructor Samples.silent Samples.noOptions)
    "You are helpful." Samples.conversation
  = ([], Throw (JsError.Error "Ollama model id is required"))
  /\ exists request,
       requests (Second.createMessage (imports := Samples.imports)
                   (Strict.constructor Samples.silent Samples.noOptions)
                   "You are helpful." Samples.conversation) = [request]
       /\ model request = "".
Proof.
  exact (C3_unset_model_id (imports := Samples.imports)
           (Strict.constructor Samples.silent Samples.noOptions)
           "You are helpful." Samples.conversation eq_refl).
Defined.

Lemma C4_witness :
  outcome (Strict.createMessage (imports := Samples.imports) Samples.refused
             "You are helpful." Samples.conversation)
  = Throw (JsError.Error
             "Could not reach Ollama at http://localhost:11434 — ECONNREFUSED: connect ECONNREFUSED 127.0.0.1:11434")
  /\ outcome (Second.createMessage (imports := Samples.imports) Samples.refused
                "You are helpful." Samples.conversation)
     = Throw Samples.fetchFailed.
Proof.
  destruct (C4_request_failure (imports := Samples.imports) Samples.refused
              "You are helpful." Samples.conversation 5 Samples.fetchFailed
              "ECONNREFUSED" eq_refl)
    as [Hstrict Hsecond].
  split.
  - apply Hstrict; [discriminate|discriminate|vm_compute; reflexivity|intros; reflexivity].
  - apply Hsecond; [vm_compute; reflexivity|intros; split; reflexivity|reflexivity].
Defined.

(** The second listing throws the error of the refused connection as it
    caught it: its message names neither the host nor the code. *)
Lemma C4_counterexample :
  outcome (Second.createMessage (imports := Samples.imports) Samples.refused
             "You are helpful." Samples.conversation)
  = Throw Samples.fetchFailed
  /\ JsError.message Samples.fetchFailed = Some "fetch failed"
  /\ Js.includes "http://localhost:11434" "fetch failed" = false
  /\ Js.includes "localhost" "fetch failed" = false
  /\ Js.includes "ECONNREFUSED" "fetch failed" = false.
Proof. repeat split. Qed.

Lemma C5_witness :
  contextWindow (info (Strict.getModel (imports := Samples.imports)
                         (Samples.configured "131072")))
  = Js.ofZ 131072
  /\ contextWindow (info (Second.getModel (imports := Samples.imports)
                            (Samples.configured "131072")))
     = Js.ofZ 131072.
Proof.
  destruct (C5_context_window (imports := Samples.imports) (Samples.configured "131072"))
    as (Hsame & _ & _ & _ & Hwindow).
  split.
  - apply Hwindow. reflexivity.
  - rewrite Hsame. apply Hwindow. reflexivity.
Defined.

(** The override "-5" parses to -5, which is not positive, and -5 is the
    window returned: neither the window of the default record nor 32768. *)
Lemma C5_counterexample :
  Js.Number (Some "-5") = Js.Finite (-5 # 1)
  /\ ~ (0 < -5 # 1)%Q
  /\ contextWindow (info (Strict.getModel (imports := Samples.imports)
                            (Samples.configured "-5")))
     = Js.Finite (-5 # 1)
  /\ contextWindow (info (Second.getModel (imports := Samples.imports)
                            (Samples.configured "-5")))
     = Js.Finite (-5 # 1)
  /\ Js.Finite (-5 # 1)
     <> contextWindow (openAiModelInfoSaneDefaults (Imports := Samples.imports))
  /\ Js.Finite (-5 # 1) <> Js.ofZ 32768.
Proof.
  split; [reflexivity|]. split; [intros Hpos; discriminate Hpos|].
  repeat split; try reflexivity; discriminate.
Qed.

Lemma C6_witness :
  ollamaUseStreaming (options (Samples.complete (part (Some "hi") (Some 3) (Some 5))))
  = Some false
  /\ exists request t response m,
       requests (Second.createMessage (imports := Samples.imports)
                   (Samples.complete (part (Some "hi") (Some 3) (Some 5)))
                   "You are helpful." Samples.conversation) = [request]
       /\ stream request = false
       /\ chat_complete (client (Samples.complete (part (Some "hi") (Some 3) (Some 5))))
            request = Promise.Fulfilled t response
       /\ t < Js.timerDelay
                (Second_timeoutMs (Samples.complete (part (Some "hi") (Some 3) (Some 5))))
       /\ Response.message response = Some m
       /\ emitted (Second.createMessage (imports := Samples.imports)
                     (Samples.complete (part (Some "hi") (Some 3) (Some 5)))
                     "You are helpful." Samples.conversation)
          = (match Response.content m with
             | Some text => [Text text]
             | None => []
             end
             ++ if defined (Response.eval_count response)
                   || defined (Response.prompt_eval_count response)
                then [Usage (Js.or_Z (Response.prompt_eval_count response) 0)
                            (Js.or_Z (Response.eval_count response) 0)]
                else [])%list.
Proof.
  split; [reflexivity|].
  exact (C6_non_streaming_response (imports := Samples.imports)
           (Samples.complete (part (Some "hi") (Some 3) (Some 5)))
           "You are helpful." Samples.conversation eq_refl eq_refl).
Defined.

Lemma Second_stream_failure_wrapped_witness :
  outcome (Second.createMessage (imports := Samples.imports)
             (Samples.streaming (Samples.broken "socket hang up"))
             "You are helpful." Samples.conversation)
  = Throw (JsError.Error "Ollama stream processing error: socket hang up")
  /\ emitted (Second.createMessage (imports := Samples.imports)
                (Samples.streaming (Samples.broken "socket hang up"))
                "You are helpful." Samples.conversation)
     = [Text "a"].
Proof.
  destruct (Second_stream_failure_wrapped (imports := Samples.imports)
              (Samples.streaming (Samples.broken "socket hang up"))
              "You are helpful." Samples.conversation 10
              (Samples.broken "socket hang up") (JsError.Error "socket hang up"))
    as (Houtcome & Hemitted & _).
  - reflexivity.
  - vm_compute; reflexivity.
  - intros; reflexivity.
  - reflexivity.
  - reflexivity.
  - split; [exact Houtcome|exact Hemitted].
Defined.

(** C7, at the input where the code departs from it: the second listing,
    no timeout configured, and a stream that delivers "a" and then throws
    an error whose message is "The operation timed out".  The stream was
    delivered after 10 ms, the timer stands at 60000 ms, and the text "a"
    has been yielded; the inner catch clause builds "Ollama stream
    processing error: The operation timed out", and what leaves
    [createMessage] is the request timeout of the outer one, with its 30
    seconds. *)
Theorem C7_stream_error_taken_for_timeout :
  Js.timerDelay (Second_timeoutMs (Samples.streaming (Samples.broken "The operation timed out")))
  = 60000
  /\ outcome (for_await (Samples.broken "The operation timed out") Second.onResponse)
     = Throw (JsError.Error "The operation timed out")
  /\ Second.onStreamError (JsError.Error "The operation timed out")
     = ([], Throw (JsError.Error "Ollama stream processing error: The operation timed out"))
  /\ emitted (Second.createMessage (imports := Samples.imports)
                (Samples.streaming (Samples.broken "The operation timed out"))
                "You are helpful." Samples.conversation)
     = [Text "a"]
  /\ outcome (Second.createMessage (imports := Samples.imports)
                (Samples.streaming (Samples.broken "The operation timed out"))
                "You are helpful." Samples.conversation)
     = Throw (JsError.Error "Ollama request timed out after 30 seconds")
  /\ JsError.Error "Ollama request timed out after 30 seconds"
     <> JsError.Error "Ollama stream processing error: The operation timed out".
Proof. repeat (split; [reflexivity|]). discriminate. Qed.

Lemma C9_witness :
  Strict.getModel (imports := Samples.imports) (Samples.configured "131072")
  = Strict.getModel (imports := Samples.imports)
      (Second.constructor (Samples.refuses Samples.fetchFailed) (Samples.withCtxNum "131072"))
  /\ Second.getModel (imports := Samples.imports) (Samples.configured "131072")
     = Second.getModel (imports := Samples.imports)
         (Second.constructor (Samples.refuses Samples.fetchFailed)
            (Samples.withCtxNum "131072")).
Proof.
  exact (C9_getModel_idempotent (imports := Samples.imports)
           (Samples.configured "131072")
           (Second.constructor (Samples.refuses Samples.fetchFailed)
              (Samples.withCtxNum "131072"))
           eq_refl eq_refl).
Defined.

Lemma C10_witness :
  emitted (Strict.createMessage (imports := Samples.imports)
             (Samples.streaming
                {| Response.parts := [textPart "x"; part (Some "") (Some 3) None; textPart "y"];
                   Response.failure := None |})
             "You are helpful." Samples.conversation)
  = [Text "x"; Text ""; Usage 0 3; Text "y"]
  /\ emitted (Second.createMessage (imports := Samples.imports)
                (Samples.streaming
                   {| Response.parts := [textPart "x"; part (Some "") (Some 3) None;
                                         textPart "y"];
                      Response.failure := None |})
                "You are helpful." Samples.conversation)
     = [Text "x"; Text ""; Usage 0 3; Text "y"]
  /\ emitted (Second.createMessage (imports := Samples.imports)
                (Samples.complete (part (Some "") (Some 3) None))
                "You are helpful." Samples.conversation)
     = [Text ""; Usage 0 3].
Proof.
  split; [|split].
  - destruct (C10_text_and_usage_from_one_part (imports := Samples.imports)
                (Samples.streaming
                   {| Response.parts := [textPart "x"; part (Some "") (Some 3) None;
                                         textPart "y"];
                      Response.failure := None |})
                "You are helpful." Samples.conversation 10 "" (Some 3) None
                [textPart "x"] [textPart "y"] None eq_refl)
      as (Hstrict & _ & _).
    apply Hstrict; [discriminate|vm_compute; reflexivity|intros; reflexivity|reflexivity].
  - destruct (C10_text_and_usage_from_one_part (imports := Samples.imports)
                (Samples.streaming
                   {| Response.parts := [textPart "x"; part (Some "") (Some 3) None;
                                         textPart "y"];
                      Response.failure := None |})
                "You are helpful." Samples.conversation 10 "" (Some 3) None
                [textPart "x"] [textPart "y"] None eq_refl)
      as (_ & Hsecond & _).
    apply Hsecond; [reflexivity|vm_compute; reflexivity|intros; reflexivity|reflexivity].
  - destruct (C10_text_and_usage_from_one_part (imports := Samples.imports)
                (Samples.complete (part (Some "") (Some 3) None))
                "You are helpful." Samples.conversation 10 "" (Some 3) None
                [] [] None eq_refl)
      as (_ & _ & Hcomplete).
    apply Hcomplete; [reflexivity|vm_compute; reflexivity|intros; reflexivity].
Defined.

Lemma Strict_timeout_reported_witness :
  Strict.createMessage (imports := Samples.imports)
    (Strict.constructor Samples.silent Samples.llama)
    "You are helpful." Samples.conversation
  = ([Chat (Strict_request (imports := Samples.imports)
              "You are helpful." Samples.conversation "llama3")],
     Throw (JsError.Error
              "Ollama API error (unknown): Ollama request timed out after 30 seconds")).
Proof.
  apply (Strict_timeout_reported (imports := Samples.imports)
           (Strict.constructor Samples.silent Samples.llama)
           "You are helpful." Samples.conversation "llama3" eq_refl).
  - vm_compute; reflexivity.
  - exact I.
Defined.

Lemma Second_timeout_reported_witness :
  outcome (Second.createMessage (imports := Samples.imports)
             (Second.constructor Samples.silent
                {| ollamaBaseUrl := None; ollamaModelId := Some "llama3";
                   ollamaApiOptionsCtxNum := None; requestTimeoutMs := Some 1500;
                   ollamaUseStreaming := None |})
             "You are helpful." Samples.conversation)
  = Throw (JsError.Error "Ollama request timed out after 1.5 seconds").
Proof.
  destruct (Second_timeout_reported (imports := Samples.imports)
              (Second.constructor Samples.silent
                 {| ollamaBaseUrl := None; ollamaModelId := Some "llama3";
                    ollamaApiOptionsCtxNum := None; requestTimeoutMs := Some 1500;
                    ollamaUseStreaming := None |})
              "You are helpful." Samples.conversation 1500 eq_refl)
    as (_ & Houtcome & _).
  - split; vm_compute; discriminate.
  - intros request _. split; exact I.
  - exact Houtcome.
Defined.

Lemma Strict_api_error_witness :
  Strict.createMessage (imports := Samples.imports)
    (Strict.constructor
       (Samples.refuses {| JsError.message := Some "model not found";
                           JsError.code := None; JsError.status := Some 404;
                           JsError.statusCode := None; JsError.cause := None |})
       Samples.llama)
    "You are helpful." Samples.conversation
  = ([Chat (Strict_request (imports := Samples.imports)
              "You are helpful." Samples.conversation "llama3")],
     Throw (JsError.Error "Ollama API error (404): model not found")).
Proof.
  refine (Strict_api_error (imports := Samples.imports)
            (Strict.constructor
               (Samples.refuses {| JsError.message := Some "model not found";
                                   JsError.code := None; JsError.status := Some 404;
                                   JsError.statusCode := None; JsError.cause := None |})
               Samples.llama)
            "You are helpful." Samples.conversation 5 _ "llama3"
            eq_refl _ _ eq_refl eq_refl eq_refl).
  - intros n [Hn|Hn]; [|discriminate Hn].
    injection Hn as <-. vm_compute; discriminate.
  - vm_compute; reflexivity.
Defined.

(** * Further properties of the two listings *)

(** ** Helper facts *)

Lemma partChunks_length (c : ChatResponse) : (List.length (partChunks c) <= 2)%nat.
Proof.
  unfold partChunks, textChunks, usageChunks. rewrite length_app.
  destruct (Response.message c) as [m|]; [destruct (Response.content m)|];
    destruct (reportsCounters c); simpl; lia.
Qed.

Lemma consume_all (parts : list ChatResponse) (failure : option JsError) :
  Forall (fun c => Response.message c <> None) parts ->
  consume parts failure
  = (flat_map partChunks parts,
     match failure with
     | None => Return tt
     | Some e => Throw e
     end).
Proof.
  induction 1 as [|c parts Hc _ IH]; simpl; [reflexivity|].
  destruct (Response.message c); [|congruence]. now rewrite IH.
Qed.

Lemma flat_map_partChunks_length (parts : list ChatResponse) :
  (List.length (flat_map partChunks parts) <= 2 * List.length parts)%nat.
Proof.
  induction parts as [|c parts IH]; simpl; [lia|].
  rewrite length_app. pose proof (partChunks_length c). lia.
Qed.

Section Rethrown.
Context {imports : Imports}.
Variable this : OllamaHandler.

Lemma Second_rethrown_timer (timeoutMs : Z) :
  Second_rethrown this (JsError.Error (timedOutText timeoutMs))
  = JsError.Error (timedOutText (Js.or_Z (requestTimeoutMs (options this)) 30000)).
Proof.
  unfold Second_rethrown.
  change (Js.truthy_string (JsError.message (JsError.Error ?m)))
    with (Js.truthy_string (Some m)).
  cbn [Js.truthy_string].
  change (String.eqb (timedOutText timeoutMs) "") with false. cbv iota.
  change (Js.includes "timed out" (timedOutText timeoutMs)) with true.
  reflexivity.
Qed.

Lemma Second_rethrown_cases (error : JsError) :
  Second_rethrown this error = error
  \/ Second_rethrown this error
     = JsError.Error (timedOutText (Js.or_Z (requestTimeoutMs (options this)) 30000)).
Proof.
  unfold Second_rethrown.
  destruct (Js.truthy_string (JsError.message error)) as [text|]; [|now left].
  destruct (Js.includes "timed out" text); [now right|now left].
Qed.

End Rethrown.

Section RaceCases.
Context {A : Type}.

(** What the race with the timer rejects with is the rejection of the
    request or the error of the timer. *)
Lemma race_rejected_cases (timeoutMs t : Z) (p : Promise.t A) (err : JsError) :
  Promise.race p (timer timeoutMs) = Promise.Rejected t err ->
  p = Promise.Rejected t err \/ err = JsError.Error (timedOutText timeoutMs).
Proof.
  unfold timer, Promise.rejectAfter.
  destruct p as [|u v|u e]; simpl.
  - intros H. inversion H. now right.
  - destruct (u <? Js.timerDelay timeoutMs); [discriminate|].
    intros H. inversion H. now right.
  - destruct (u <? Js.timerDelay timeoutMs); intros H.
    + now left.
    + inversion H. now right.
Qed.

Lemma race_fulfilled_cases (timeoutMs t : Z) (p : Promise.t A) (v : A) :
  Promise.race p (timer timeoutMs) = Promise.Fulfilled t v ->
  p = Promise.Fulfilled t v /\ t < Js.timerDelay timeoutMs.
Proof.
  unfold timer, Promise.rejectAfter.
  destruct p as [|u w|u e]; simpl; [discriminate| |].
  - destruct (Z.ltb_spec u (Js.timerDelay timeoutMs)) as [Hlt|Hge]; [|discriminate].
    intros H. inversion H. subst. now split.
  - destruct (u <? Js.timerDelay timeoutMs); discriminate.
Qed.

End RaceCases.

Lemma Strict_diagnose_cases (this : OllamaHandler) (err : JsError) :
  exists text,
    Strict.diagnose this err = JsError.Error text
    /\ (prefix "Could not reach Ollama at " text = true
        \/ prefix "Ollama API error (" text = true).
Proof.
  unfold Strict.diagnose.
  destruct (match JsError.cause err with
            | Some c => (JsError.cause_code c, JsError.cause_message c)
            | None => (JsError.code err, JsError.message err)
            end) as [cause_code cause_message].
  destruct (Js.truthy_string cause_code) as [code|]; eexists; (split; [reflexivity|]).
  - left. apply prefix_app.
  - right. apply prefix_app.
Qed.

Lemma includes_nonempty (needle text : string) :
  needle <> "" -> Js.includes needle text = true -> text <> "".
Proof.
  intros Hneedle Hincludes ->. destruct needle; [congruence|discriminate].
Qed.

Section Further.
Context {imports : Imports}.
Variables (this : OllamaHandler) (systemPrompt : string) (conversation : list MessageParam).

(** In the first listing the loop over the stream stands outside every
    [try]: an error raised while the stream is read (by the stream, or by a
    part without a message) leaves [createMessage] as it is, neither wrapped
    nor diagnosed, after the chunks of the parts read before it. *)
Theorem Strict_stream_failure_unwrapped (t : Z) (s : Stream) (streamError : JsError) :
  Js.truthy_string (ollamaModelId (options this)) <> None ->
  t < Js.timerDelay (Strict_timeoutMs this) ->
  (forall request,
      In request (requests (Strict.createMessage this systemPrompt conversation)) ->
      chat_streaming (client this) request = Promise.Fulfilled t s) ->
  outcome (for_await s Strict.onChunk) = Throw streamError ->
  outcome (Strict.createMessage this systemPrompt conversation) = Throw streamError
  /\ emitted (Strict.createMessage this systemPrompt conversation)
     = emitted (for_await s Strict.onChunk).
Proof.
  intros Hid Ht Hanswer Hfails.
  rewrite Strict_requests in Hanswer. rewrite Strict_createMessage_run.
  destruct (Js.truthy_string (ollamaModelId (options this))) as [modelId|];
    [|congruence].
  cbv zeta. rewrite (Hanswer _ (or_introl eq_refl)).
  rewrite race_fulfilled_in_time by assumption.
  rewrite Strict_for_await in *. unfold outcome in *. cbn [snd] in *.
  rewrite emitted_chat_yields. unfold emitted. cbn [fst].
  now rewrite yields_map_Yield.
Qed.

(** A stream delivered in time whose parts all carry a message is read to
    its end: the chunks yielded are those of its parts, part by part in the
    order of the stream (the Text chunk of a part when its content is a
    string, then its Usage chunk when it reports a counter), so at most two
    chunks for a part; and the run returns when the stream ends without an
    error.  This holds in both listings. *)
Theorem stream_parts_in_order (t : Z) (s : Stream) :
  Forall (fun c => Response.message c <> None) (Response.parts s) ->
  (Js.truthy_string (ollamaModelId (options this)) <> None ->
   t < Js.timerDelay (Strict_timeoutMs this) ->
   (forall request,
       In request (requests (Strict.createMessage this systemPrompt conversation)) ->
       chat_streaming (client this) request = Promise.Fulfilled t s) ->
   emitted (Strict.createMessage this systemPrompt conversation)
   = flat_map partChunks (Response.parts s)
   /\ (List.length (emitted (Strict.createMessage this systemPrompt conversation))
       <= 2 * List.length (Response.parts s))%nat
   /\ (Response.failure s = None ->
       outcome (Strict.createMessage this systemPrompt conversation) = Return tt))
  /\
  (Js.nullish (ollamaUseStreaming (options this)) true = true ->
   t < Js.timerDelay (Second_timeoutMs this) ->
   (forall request,
       In request (requests (Second.createMessage this systemPrompt conversation)) ->
       chat_streaming (client this) request = Promise.Fulfilled t s) ->
   emitted (Second.createMessage this systemPrompt conversation)
   = flat_map partChunks (Response.parts s)
   /\ (List.length (emitted (Second.createMessage this systemPrompt conversation))
       <= 2 * List.length (Response.parts s))%nat
   /\ (Response.failure s = None ->
       outcome (Second.createMessage this systemPrompt conversation) = Return tt)).
Proof.
  intros Hparts.
  pose proof (consume_all _ (Response.failure s) Hparts) as Hconsume.
  pose proof (flat_map_partChunks_length (Response.parts s)) as Hlength.
  split.
  - intros Hid Ht Hanswer.
    rewrite Strict_requests in Hanswer. rewrite Strict_createMessage_run.
    destruct (Js.truthy_string (ollamaModelId (options this))) as [modelId|];
      [|congruence].
    cbv zeta. rewrite (Hanswer _ (or_introl eq_refl)).
    rewrite race_fulfilled_in_time by assumption.
    rewrite Hconsume, emitted_chat_yields. unfold outcome. cbn [fst snd].
    repeat split; [assumption|now intros ->].
  - intros Hstreaming Ht Hanswer.
    rewrite Second_requests in Hanswer. rewrite Second_createMessage_run.
    rewrite Hstreaming in *. cbv zeta. rewrite (Hanswer _ (or_introl eq_refl)).
    rewrite race_fulfilled_in_time by assumption.
    rewrite Hconsume, emitted_chat_yields. unfold outcome. cbn [fst snd].
    repeat split; [assumption|now intros ->].
Qed.

(** On one stream, delivered in time to both, the two listings yield the
    same chunks, also when reading the stream fails part of the way; and one
    returns exactly when the other does.  They differ in the error thrown. *)
Theorem listings_agree_on_stream (t t' : Z) (s : Stream) :
  Js.truthy_string (ollamaModelId (options this)) <> None ->
  Js.nullish (ollamaUseStreaming (options this)) true = true ->
  t < Js.timerDelay (Strict_timeoutMs this) ->
  t' < Js.timerDelay (Second_timeoutMs this) ->
  (forall request,
      In request (requests (Strict.createMessage this systemPrompt conversation)) ->
      chat_streaming (client this) request = Promise.Fulfilled t s) ->
  (forall request,
      In request (requests (Second.createMessage this systemPrompt conversation)) ->
      chat_streaming (client this) request = Promise.Fulfilled t' s) ->
  emitted (Strict.createMessage this systemPrompt conversation)
  = emitted (Second.createMessage this systemPrompt conversation)
  /\ (outcome (Strict.createMessage this systemPrompt conversation) = Return tt
      <-> outcome (Second.createMessage this systemPrompt conversation) = Return tt).
Proof.
  intros Hid Hstreaming Ht Ht' Hstrict Hsecond.
  rewrite Strict_requests in Hstrict. rewrite Second_requests in Hsecond.
  rewrite Strict_createMessage_run, Second_createMessage_run.
  destruct (Js.truthy_string (ollamaModelId (options this))) as [modelId|];
    [|congruence].
  rewrite Hstreaming in *. cbv zeta.
  rewrite (Hstrict _ (or_introl eq_refl)), (Hsecond _ (or_introl eq_refl)).
  rewrite !race_fulfilled_in_time by assumption.
  rewrite !emitted_chat_yields. unfold outcome. cbn [snd].
  split; [reflexivity|].
  destruct (snd (consume (Response.parts s) (Response.failure s))) as [[]|e|];
    split; intros H; (reflexivity || discriminate).
Qed.

(** Whatever the server does, an error thrown by the second listing is one
    of four: the timeout error, which states a thousandth of
    [requestTimeoutMs || 30000] (a number below 10^15 in absolute value);
    the rejection of the request, as it came; the stream processing error
    made of the error that reading the delivered stream raised; or, without
    streaming, the TypeError of a delivered response that has no message. *)
Theorem Second_thrown_errors (e : JsError) :
  Js.exactlyPrinted (Js.or_Z (requestTimeoutMs (options this)) 30000) ->
  outcome (Second.createMessage this systemPrompt conversation) = Throw e ->
  e = JsError.Error
        ("Ollama request timed out after "
         ++ Js.div1000_text (Js.or_Z (requestTimeoutMs (options this)) 30000)
         ++ " seconds")
  \/ (exists request t,
        In request (requests (Second.createMessage this systemPrompt conversation))
        /\ (chat_streaming (client this) request = Promise.Rejected t e
            \/ chat_complete (client this) request = Promise.Rejected t e))
  \/ (exists request t s streamError,
        In request (requests (Second.createMessage this systemPrompt conversation))
        /\ chat_streaming (client this) request = Promise.Fulfilled t s
        /\ outcome (for_await s Second.onResponse) = Throw streamError
        /\ e = JsError.Error
                 ("Ollama stream processing error: "
                  ++ Js.or_string (JsError.message streamError) "Unknown error"))
  \/ (exists request t response,
        Js.nullish (ollamaUseStreaming (options this)) true = false
        /\ In request (requests (Second.createMessage this systemPrompt conversation))
        /\ chat_complete (client this) request = Promise.Fulfilled t response
        /\ Response.message response = None
        /\ e = JsError.TypeError_content).
Proof.
  intros _.
  rewrite Second_requests, Second_createMessage_run. unfold outcome.
  destruct (Js.nullish (ollamaUseStreaming (options this)) true); cbv zeta.
  - destruct (Promise.race _ _) as [|t s|t err] eqn:Hrace; cbn [snd];
      [discriminate| |].
    + destruct (snd (consume (Response.parts s) (Response.failure s)))
        as [[]|streamError|] eqn:Hloop; try discriminate.
      intros H. injection H as <-.
      destruct (Second_rethrown_cases this (streamProcessingError streamError)) as [-> | ->].
      * right. right. left.
        apply race_fulfilled_cases in Hrace. destruct Hrace as [Hrequest _].
        eexists _, t, s, streamError. split; [now left|]. split; [exact Hrequest|].
        split; [|reflexivity]. rewrite Second_for_await. exact Hloop.
      * now left.
    + intros H. injection H as <-.
      destruct (race_rejected_cases _ _ _ _ Hrace) as [Hrequest | ->].
      * destruct (Second_rethrown_cases this err) as [-> | ->]; [|now left].
        right. left. eexists _, t. split; [now left|]. now left.
      * left. apply Second_rethrown_timer.
  - destruct (Promise.race _ _) as [|t r|t err] eqn:Hrace; cbn [snd];
      [discriminate| |].
    + destruct (Response.message r) eqn:Hmessage; [discriminate|].
      intros H. injection H as <-. right. right. right.
      apply race_fulfilled_cases in Hrace. destruct Hrace as [Hrequest _].
      eexists _, t, r. split; [reflexivity|]. split; [now left|].
      split; [exact Hrequest|]. split; [exact Hmessage|reflexivity].
    + intros H. injection H as <-.
      destruct (race_rejected_cases _ _ _ _ Hrace) as [Hrequest | ->].
      * destruct (Second_rethrown_cases this err) as [-> | ->]; [|now left].
        right. left. eexists _, t. split; [now left|]. now right.
      * left. apply Second_rethrown_timer.
Qed.

(** Whatever the server does, an error thrown by the first listing is the
    error of the missing model id, an error whose message starts with
    "Could not reach Ollama at " or with "Ollama API error (", or the error
    raised while a stream that was delivered is read. *)
Theorem Strict_thrown_errors (e : JsError) :
  outcome (Strict.createMessage this systemPrompt conversation) = Throw e ->
  (Js.truthy_string (ollamaModelId (options this)) = None
   /\ e = JsError.Error "Ollama model id is required")
  \/ (exists text,
        e = JsError.Error text
        /\ (prefix "Could not reach Ollama at " text = true
            \/ prefix "Ollama API error (" text = true))
  \/ (exists request t s,
        In request (requests (Strict.createMessage this systemPrompt conversation))
        /\ chat_streaming (client this) request = Promise.Fulfilled t s
        /\ outcome (for_await s Strict.onChunk) = Throw e).
Proof.
  rewrite Strict_requests, Strict_createMessage_run. unfold outcome.
  destruct (Js.truthy_string (ollamaModelId (options this))) as [modelId|].
  - cbv zeta. destruct (Promise.race _ _) as [|t s|t err] eqn:Hrace; cbn [snd];
      [discriminate| |].
    + intros H. right. right.
      apply race_fulfilled_cases in Hrace. destruct Hrace as [Hrequest _].
      eexists _, t, s. split; [now left|]. split; [exact Hrequest|].
      now rewrite Strict_for_await.
    + intros H. injection H as <-. right. left. apply Strict_diagnose_cases.
  - intros H. injection H as <-. left. split; reflexivity.
Qed.

(** In the second listing a request that is rejected, at any time before
    the timer fires, with an error whose message contains "timed out" is
    taken for the timer: what is thrown is a new timeout error that states a
    thousandth of [requestTimeoutMs || 30000] (a number below 10^15 in
    absolute value), and the error of the request, its code and cause are
    dropped. *)
Theorem Second_rejection_taken_for_timeout (t : Z) (err : JsError) (text : string) :
  Js.exactlyPrinted (Js.or_Z (requestTimeoutMs (options this)) 30000) ->
  JsError.message err = Some text ->
  Js.includes "timed out" text = true ->
  t < Js.timerDelay (Second_timeoutMs this) ->
  (forall request,
      In request (requests (Second.createMessage this systemPrompt conversation)) ->
      chat_streaming (client this) request = Promise.Rejected t err
      /\ chat_complete (client this) request = Promise.Rejected t err) ->
  outcome (Second.createMessage this systemPrompt conversation)
  = Throw (JsError.Error
             ("Ollama request timed out after "
              ++ Js.div1000_text (Js.or_Z (requestTimeoutMs (options this)) 30000)
              ++ " seconds"))
  /\ emitted (Second.createMessage this systemPrompt conversation) = [].
Proof.
  intros _ Hmessage Hincludes Ht Hanswer.
  assert (Hthrown : Second_rethrown this err
                    = JsError.Error
                        (timedOutText (Js.or_Z (requestTimeoutMs (options this)) 30000))).
  { unfold Second_rethrown. rewrite Hmessage. cbn [Js.truthy_string].
    destruct (String.eqb_spec text "") as [Hempty|_].
    - now apply includes_nonempty in Hincludes.
    - now rewrite Hincludes. }
  rewrite Second_requests in Hanswer. rewrite Second_createMessage_run.
  destruct (Hanswer _ (or_introl eq_refl)) as [Hstream Hcomplete].
  destruct (Js.nullish (ollamaUseStreaming (options this)) true); cbv zeta.
  - rewrite Hstream, race_rejected_in_time by assumption.
    rewrite Hthrown. split; reflexivity.
  - rewrite Hcomplete, race_rejected_in_time by assumption.
    rewrite Hthrown. split; reflexivity.
Qed.

(** In the first listing the cause of an error, when it has one, decides
    alone: a request rejected before the timer fires with an error whose
    cause carries no code is re-raised as an API error with the status (a
    safe integer) and the message of the error, also when the error itself
    carries a code. *)
Theorem Strict_cause_decides (t : Z) (err : JsError) (c : JsError.Cause) :
  (forall n, JsError.status err = Some n \/ JsError.statusCode err = Some n ->
             Js.safeInteger n) ->
  JsError.cause err = Some c ->
  Js.truthy_string (JsError.cause_code c) = None ->
  Js.truthy_string (ollamaModelId (options this)) <> None ->
  t < Js.timerDelay (Strict_timeoutMs this) ->
  (forall request,
      In request (requests (Strict.createMessage this systemPrompt conversation)) ->
      chat_streaming (client this) request = Promise.Rejected t err) ->
  outcome (Strict.createMessage this systemPrompt conversation)
  = Throw (JsError.Error
             ("Ollama API error ("
              ++ match JsError.status err, JsError.statusCode err with
                 | Some n, _ => Js.string_of_Z n
                 | None, Some n => Js.string_of_Z n
                 | None, None => "unknown"
                 end
              ++ "): " ++ Js.nullish (JsError.message err) JsError.object_text)).
Proof.
  intros _ Hcause Hcode Hid Ht Hanswer.
  rewrite Strict_requests in Hanswer. rewrite Strict_createMessage_run.
  destruct (Js.truthy_string (ollamaModelId (options this))) as [modelId|];
    [|congruence].
  cbv zeta. rewrite (Hanswer _ (or_introl eq_refl)).
  rewrite race_rejected_in_time by assumption.
  unfold outcome, Strict.diagnose. cbn [snd]. now rewrite Hcause, Hcode.
Qed.

(** A configured timeout of 0 ms: the first listing takes it as it is
    ([??]), the timer fires after 1 ms, so a request that needs a
    millisecond or more loses the race and the call fails with "... timed
    out after 0 seconds" without a chunk; the second listing takes 0 for no
    timeout ([||]) and sets the timer to 60000 ms, so the same answer, when
    it comes before that, is read. *)
Theorem zero_timeout (t : Z) (s : Stream) :
  requestTimeoutMs (options this) = Some 0 ->
  0 < t ->
  (Js.truthy_string (ollamaModelId (options this)) <> None ->
   (forall request,
       In request (requests (Strict.createMessage this systemPrompt conversation)) ->
       chat_streaming (client this) request = Promise.Fulfilled t s) ->
   outcome (Strict.createMessage this systemPrompt conversation)
   = Throw (JsError.Error
              "Ollama API error (unknown): Ollama request timed out after 0 seconds")
   /\ emitted (Strict.createMessage this systemPrompt conversation) = [])
  /\
  (Js.nullish (ollamaUseStreaming (options this)) true = true ->
   t < 60000 ->
   (forall request,
       In request (requests (Second.createMessage this systemPrompt conversation)) ->
       chat_streaming (client this) request = Promise.Fulfilled t s) ->
   emitted (Second.createMessage this systemPrompt conversation)
   = emitted (for_await s Second.onResponse)
   /\ (outcome (for_await s Second.onResponse) = Return tt ->
       outcome (Second.createMessage this systemPrompt conversation) = Return tt)).
Proof.
  intros Hzero Ht. split.
  - intros Hid Hanswer.
    rewrite Strict_requests in Hanswer. rewrite Strict_createMessage_run.
    destruct (Js.truthy_string (ollamaModelId (options this))) as [modelId|];
      [|congruence].
    cbv zeta. rewrite (Hanswer _ (or_introl eq_refl)).
    assert (Hdelay : Strict_timeoutMs this = 0)
      by (unfold Strict_timeoutMs; now rewrite Hzero).
    rewrite Hdelay, race_unsettled
      by (change (Js.timerDelay 0) with 1; cbn [unsettledAt]; lia).
    split; reflexivity.
  - intros Hstreaming Hlate Hanswer.
    rewrite Second_requests in Hanswer. rewrite Second_createMessage_run.
    rewrite Hstreaming in *. cbv zeta. rewrite (Hanswer _ (or_introl eq_refl)).
    assert (Hdelay : Second_timeoutMs this = 60000)
      by (unfold Second_timeoutMs; now rewrite Hzero).
    rewrite Hdelay, race_fulfilled_in_time by exact Hlate.
    rewrite Second_for_await, emitted_chat_yields. unfold outcome, emitted.
    cbn [fst snd]. rewrite yields_map_Yield. split; [reflexivity|now intros ->].
Qed.

(** The context size told to the server.  The first listing sends no
    [options] at all: a configured override changes what [getModel] reports
    and nothing of the request.  The second listing always sends
    [options.num_ctx]: the window [getModel] reports when an override is
    configured, and 32768 when none is, whatever the window of the default
    record that [getModel] then reports. *)
Theorem num_ctx_sent :
  (forall request,
      In request (requests (Strict.createMessage this systemPrompt conversation)) ->
      num_ctx request = None)
  /\ exists request,
       requests (Second.createMessage this systemPrompt conversation) = [request]
       /\ (Js.truthy_string (ollamaApiOptionsCtxNum (options this)) <> None ->
           num_ctx request = Some (contextWindow (info (Second.getModel this))))
       /\ (Js.truthy_string (ollamaApiOptionsCtxNum (options this)) = None ->
           num_ctx request = Some (Js.ofZ 32768)
           /\ info (Second.getModel this) = openAiModelInfoSaneDefaults).
Proof.
  rewrite Strict_requests, Second_requests. split.
  - destruct (Js.truthy_string (ollamaModelId (options this))); [|contradiction].
    intros request [<-|[]]. reflexivity.
  - eexists. split; [reflexivity|].
    unfold Second_request, Second.getModel. cbn [num_ctx info contextWindow].
    destruct (ollamaApiOptionsCtxNum (options this)) as [ctx|]; cbn [Js.truthy_string].
    + destruct (String.eqb_spec ctx "") as [->|_].
      * split; [congruence|]. intros _. split; reflexivity.
      * split; [reflexivity|discriminate].
    + split; [congruence|]. intros _. split; reflexivity.
Qed.

(** One attempt of [createMessage] makes its request first and at most
    once: what happens in a run of the method body is the request (none in
    the first listing without a model id and one with it, one in every run
    of the second listing) and then chunks only. *)
Theorem one_request_then_chunks :
  (exists chunks,
      fst (Strict.createMessage this systemPrompt conversation)
      = (map Chat (requests (Strict.createMessage this systemPrompt conversation))
         ++ map Yield chunks)%list)
  /\ List.length (requests (Strict.createMessage this systemPrompt conversation))
     = (if defined (Js.truthy_string (ollamaModelId (options this))) then 1 else 0)%nat
  /\ (exists chunks,
        fst (Second.createMessage this systemPrompt conversation)
        = (map Chat (requests (Second.createMessage this systemPrompt conversation))
           ++ map Yield chunks)%list)
  /\ List.length (requests (Second.createMessage this systemPrompt conversation)) = 1%nat.
Proof.
  rewrite Strict_requests, Second_requests.
  rewrite Strict_createMessage_run, Second_createMessage_run.
  split; [|split; [|split; [|reflexivity]]].
  - destruct (Js.truthy_string (ollamaModelId (options this))) as [modelId|];
      [|now exists []].
    cbv zeta. destruct (Promise.race _ _) as [|t s|t err]; cbn [fst map app].
    + now exists [].
    + eexists. reflexivity.
    + now exists [].
  - destruct (Js.truthy_string (ollamaModelId (options this))); reflexivity.
  - destruct (Js.nullish (ollamaUseStreaming (options this)) true); cbv zeta;
      destruct (Promise.race _ _) as [|t r|t err]; cbn [fst map app];
      try (now exists []).
    + eexists. reflexivity.
    + destruct (Response.message r); cbn [fst]; [eexists; reflexivity|now exists []].
Qed.

(** Every request of the first listing names the configured model, which
    is not the empty string. *)
Theorem Strict_model_never_empty (request : ChatRequest) :
  In request (requests (Strict.createMessage this systemPrompt conversation)) ->
  ollamaModelId (options this) = Some (model request) /\ model request <> "".
Proof.
  rewrite Strict_requests.
  destruct (ollamaModelId (options this)) as [modelId|]; cbn [Js.truthy_string];
    [|contradiction].
  destruct (String.eqb_spec modelId ""); [contradiction|].
  intros [<-|[]]. now split.
Qed.

(** With an override configured, the window [getModel] reports is a number
    that is neither NaN nor zero, whatever the override is; so is the
    [num_ctx] of every request of the second listing, with or without an
    override. *)
Theorem window_never_falsy :
  (Js.truthy_string (ollamaApiOptionsCtxNum (options this)) <> None ->
   Js.truthy_number (contextWindow (info (Strict.getModel this))) = true
   /\ Js.truthy_number (contextWindow (info (Second.getModel this))) = true)
  /\ forall request,
       In request (requests (Second.createMessage this systemPrompt conversation)) ->
       exists n, num_ctx request = Some n /\ Js.truthy_number n = true.
Proof.
  assert (Hor : forall x, Js.truthy_number (Js.or_number x (Js.ofZ 32768)) = true).
  { intros x. unfold Js.or_number. now destruct (Js.truthy_number x) eqn:Hx. }
  split.
  - unfold Strict.getModel, Second.getModel. cbn [info].
    destruct (Js.truthy_string (ollamaApiOptionsCtxNum (options this))); [|congruence].
    intros _. cbn [contextWindow]. split; apply Hor.
  - rewrite Second_requests. intros request [<-|[]].
    eexists. split; [reflexivity|apply Hor].
Qed.

End Further.

Lemma prefix_split (p hay : string) :
  prefix p hay = true -> exists b, hay = p ++ b.
Proof.
  revert hay. induction p as [|x p IH]; intros hay.
  - intros _. now exists hay.
  - destruct hay as [|y hay]; cbn [prefix]; [discriminate|].
    destruct (ascii_dec x y) as [<-|]; [|discriminate].
    intros H. destruct (IH _ H) as [b ->]. now exists b.
Qed.

(** [includes], the test of line 211, holds exactly of the strings that
    contain the needle. *)
Theorem includes_spec (needle hay : string) :
  Js.includes needle hay = true <-> exists a b, hay = a ++ needle ++ b.
Proof.
  split.
  - induction hay as [|c hay IH]; cbn [Js.includes].
    + destruct (prefix needle "") eqn:Hprefix; [|discriminate].
      intros _. destruct (prefix_split _ _ Hprefix) as [b Hb]. now exists "", b.
    + destruct (prefix needle (String c hay)) eqn:Hprefix.
      * intros _. destruct (prefix_split _ _ Hprefix) as [b Hb]. now exists "", b.
      * intros H. destruct (IH H) as (a & b & ->). now exists (String c a), b.
  - intros (a & b & ->). apply includes_app.
Qed.

(** ** These statements at sample inputs *)

Lemma Strict_stream_failure_unwrapped_witness :
  outcome (Strict.createMessage (imports := Samples.imports)
             (Samples.streaming (Samples.broken "socket hang up"))
             "You are helpful." Samples.conversation)
  = Throw (JsError.Error "socket hang up")
  /\ emitted (Strict.createMessage (imports := Samples.imports)
                (Samples.streaming (Samples.broken "socket hang up"))
                "You are helpful." Samples.conversation)
     = [Text "a"].
Proof.
  apply (Strict_stream_failure_unwrapped (imports := Samples.imports)
           (Samples.streaming (Samples.broken "socket hang up"))
           "You are helpful." Samples.conversation 10
           (Samples.broken "socket hang up") (JsError.Error "socket hang up")).
  - discriminate.
  - vm_compute; reflexivity.
  - intros; reflexivity.
  - reflexivity.
Defined.

Lemma stream_parts_in_order_witness :
  emitted (Strict.createMessage (imports := Samples.imports)
             (Samples.streaming (Samples.abThen (part (Some "") (Some 3) None)))
             "You are helpful." Samples.conversation)
  = [Text "a"; Text "b"; Text ""; Usage 0 3]
  /\ emitted (Second.createMessage (imports := Samples.imports)
                (Samples.streaming (Samples.abThen (part (Some "") (Some 3) None)))
                "You are helpful." Samples.conversation)
     = [Text "a"; Text "b"; Text ""; Usage 0 3].
Proof.
  destruct (stream_parts_in_order (imports := Samples.imports)
              (Samples.streaming (Samples.abThen (part (Some "") (Some 3) None)))
              "You are helpful." Samples.conversation 10
              (Samples.abThen (part (Some "") (Some 3) None)))
    as [Hstrict Hsecond].
  - repeat constructor; discriminate.
  - split.
    + apply Hstrict; [discriminate|vm_compute; reflexivity|intros; reflexivity].
    + apply Hsecond; [reflexivity|vm_compute; reflexivity|intros; reflexivity].
Defined.

Lemma listings_agree_on_stream_witness :
  emitted (Strict.createMessage (imports := Samples.imports)
             (Samples.streaming (Samples.broken "socket hang up"))
             "You are helpful." Samples.conversation)
  = emitted (Second.createMessage (imports := Samples.imports)
               (Samples.streaming (Samples.broken "socket hang up"))
               "You are helpful." Samples.conversation).
Proof.
  apply (listings_agree_on_stream (imports := Samples.imports)
           (Samples.streaming (Samples.broken "socket hang up"))
           "You are helpful." Samples.conversation 10 10
           (Samples.broken "socket hang up")).
  - discriminate.
  - reflexivity.
  - vm_compute; reflexivity.
  - vm_compute; reflexivity.
  - intros; reflexivity.
  - intros; reflexivity.
Defined.

Lemma Second_thrown_errors_witness :
  outcome (Second.createMessage (imports := Samples.imports) Samples.refused
             "You are helpful." Samples.conversation)
  = Throw Samples.fetchFailed
  /\ (Samples.fetchFailed = JsError.Error "Ollama request timed out after 30 seconds"
      \/ (exists request t,
            In request (requests (Second.createMessage (imports := Samples.imports)
                                    Samples.refused "You are helpful."
                                    Samples.conversation))
            /\ (chat_streaming (client Samples.refused) request
                = Promise.Rejected t Samples.fetchFailed
                \/ chat_complete (client Samples.refused) request
                   = Promise.Rejected t Samples.fetchFailed))
      \/ (exists request t s streamError,
            In request (requests (Second.createMessage (imports := Samples.imports)
                                    Samples.refused "You are helpful."
                                    Samples.conversation))
            /\ chat_streaming (client Samples.refused) request = Promise.Fulfilled t s
            /\ outcome (for_await s Second.onResponse) = Throw streamError
            /\ Samples.fetchFailed
               = JsError.Error
                   ("Ollama stream processing error: "
                    ++ Js.or_string (JsError.message streamError) "Unknown error"))
      \/ (exists request t response,
            Js.nullish (ollamaUseStreaming (options Samples.refused)) true = false
            /\ In request (requests (Second.createMessage (imports := Samples.imports)
                                       Samples.refused "You are helpful."
                                       Samples.conversation))
            /\ chat_complete (client Samples.refused) request
               = Promise.Fulfilled t response
            /\ Response.message response = None
            /\ Samples.fetchFailed = JsError.TypeError_content)).
Proof.
  split; [reflexivity|].
  apply (Second_thrown_errors (imports := Samples.imports) Samples.refused
           "You are helpful." Samples.conversation Samples.fetchFailed).
  - vm_compute; reflexivity.
  - reflexivity.
Defined.

Lemma Strict_thrown_errors_witness :
  outcome (Strict.createMessage (imports := Samples.imports)
             (Strict.constructor Samples.silent Samples.llama)
             "You are helpful." Samples.conversation)
  = Throw (JsError.Error
             "Ollama API error (unknown): Ollama request timed out after 30 seconds")
  /\ exists text,
       JsError.Error
         "Ollama API error (unknown): Ollama request timed out after 30 seconds"
       = JsError.Error text
       /\ (prefix "Could not reach Ollama at " text = true
           \/ prefix "Ollama API error (" text = true).
Proof.
  split; [reflexivity|].
  destruct (Strict_thrown_errors (imports := Samples.imports)
              (Strict.constructor Samples.silent Samples.llama)
              "You are helpful." Samples.conversation
              (JsError.Error
                 "Ollama API error (unknown): Ollama request timed out after 30 seconds")
              eq_refl)
    as [[Hid _]|[Hwrapped|(request & t & s & _ & Hanswer & _)]].
  - discriminate Hid.
  - exact Hwrapped.
  - discriminate Hanswer.
Defined.

Lemma Second_rejection_taken_for_timeout_witness :
  outcome (Second.createMessage (imports := Samples.imports)
             (Second.constructor (Samples.refuses Samples.connectTimedOut) Samples.llama)
             "You are helpful." Samples.conversation)
  = Throw (JsError.Error "Ollama request timed out after 30 seconds").
Proof.
  apply (Second_rejection_taken_for_timeout (imports := Samples.imports)
           (Second.constructor (Samples.refuses Samples.connectTimedOut) Samples.llama)
           "You are helpful." Samples.conversation 5 Samples.connectTimedOut
           "connect timed out").
  - vm_compute; reflexivity.
  - reflexivity.
  - reflexivity.
  - vm_compute; reflexivity.
  - intros; split; reflexivity.
Defined.

Lemma Strict_cause_decides_witness :
  outcome (Strict.createMessage (imports := Samples.imports)
             (Strict.constructor (Samples.refuses Samples.resetByPeer) Samples.llama)
             "You are helpful." Samples.conversation)
  = Throw (JsError.Error "Ollama API error (502): fetch failed").
Proof.
  apply (Strict_cause_decides (imports := Samples.imports)
           (Strict.constructor (Samples.refuses Samples.resetByPeer) Samples.llama)
           "You are helpful." Samples.conversation 5 Samples.resetByPeer
           {| JsError.cause_code := None; JsError.cause_message := Some "socket closed" |}).
  - intros n [Hn|Hn]; [|discriminate Hn].
    injection Hn as <-. vm_compute; discriminate.
  - reflexivity.
  - reflexivity.
  - discriminate.
  - vm_compute; reflexivity.
  - intros; reflexivity.
Defined.

Lemma zero_timeout_witness :
  outcome (Strict.createMessage (imports := Samples.imports)
             (Strict.constructor
                (Samples.streams (Promise.Fulfilled 10 (Samples.abThen (textPart "c"))))
                (Samples.withTimeout 0))
             "You are helpful." Samples.conversation)
  = Throw (JsError.Error
             "Ollama API error (unknown): Ollama request timed out after 0 seconds")
  /\ emitted (Second.createMessage (imports := Samples.imports)
                (Strict.constructor
                   (Samples.streams (Promise.Fulfilled 10 (Samples.abThen (textPart "c"))))
                   (Samples.withTimeout 0))
                "You are helpful." Samples.conversation)
     = [Text "a"; Text "b"; Text "c"].
Proof.
  destruct (zero_timeout (imports := Samples.imports)
              (Strict.constructor
                 (Samples.streams (Promise.Fulfilled 10 (Samples.abThen (textPart "c"))))
                 (Samples.withTimeout 0))
              "You are helpful." Samples.conversation 10
              (Samples.abThen (textPart "c")) eq_refl)
    as [Hstrict Hsecond].
  - vm_compute; reflexivity.
  - split.
    + apply Hstrict; [discriminate|intros; reflexivity].
    + apply Hsecond; [reflexivity|vm_compute; reflexivity|intros; reflexivity].
Defined.

Lemma num_ctx_sent_witness :
  exists request,
    requests (Second.createMessage (imports := Samples.imports)
                (Samples.configured "131072") "You are helpful." Samples.conversation)
    = [request]
    /\ num_ctx request = Some (Js.ofZ 131072).
Proof.
  destruct (num_ctx_sent (imports := Samples.imports) (Samples.configured "131072")
              "You are helpful." Samples.conversation)
    as (_ & request & Hrequest & Hset & _).
  exists request. split; [exact Hrequest|].
  exact (Hset ltac:(discriminate)).
Defined.

Lemma Strict_model_never_empty_witness :
  ollamaModelId (options (Strict.constructor Samples.silent Samples.llama)) = Some "llama3"
  /\ "llama3" <> "".
Proof.
  exact (Strict_model_never_empty (imports := Samples.imports)
           (Strict.constructor Samples.silent Samples.llama)
           "You are helpful." Samples.conversation
           (Strict_request (imports := Samples.imports)
              "You are helpful." Samples.conversation "llama3")
           (or_introl eq_refl)).
Defined.

Lemma window_never_falsy_witness :
  Js.truthy_number
    (contextWindow (info (Strict.getModel (imports := Samples.imports)
                            (Samples.configured "not a number"))))
  = true
  /\ Js.truthy_number
       (contextWindow (info (Second.getModel (imports := Samples.imports)
                               (Samples.configured "not a number"))))
     = true.
Proof.
  apply (window_never_falsy (imports := Samples.imports)
           (Samples.configured "not a number") "You are helpful." Samples.conversation).
  discriminate.
Defined.
